(** * Seoul real-estate dashboard (api.py): query, filter, convert, aggregate

    A shallow embedding of [src/api.py].  The program is sequential glue
    around three libraries (requests, ElementTree, pandas); the embedding
    keeps the program's own control flow and data and reads the library
    calls as follows.

    - Python [str] values are [string]s; a value that may be [None] is an
      [option string].  [Element.text] is [None] for an element without
      text, so the text of a child of a [<row>] is an [option string].
    - An exception is a value of [exn]; code that can raise returns [exc].
    - A cell of a numeric column is a binary64 float: NaN ([None]), or a
      [number], which is an infinity or the rational a finite float denotes.
      Division rounds to the nearest binary64 number ([round]).  The two
      zeros are not told apart, and a column that pandas keeps as int64 is
      read as the same values in float64.
    - A pandas datetime column holds calendar dates or NaT ([None]).
    - The two text parsers of pandas ([to_datetime] with the format
      [%Y%m%d], [to_numeric]) are library code: the program is embedded over
      any pair of parsers ([Parsers]), and [reference_parsers] is a concrete
      pair used to run the program on examples.  In the same way the means
      and sums of pandas and Python, whose order of additions is the
      library's, are the operations of [Summation]. *)

From Stdlib Require Import List String Ascii ZArith QArith Bool Lia.
From Stdlib Require Import Sorting.Permutation Sorting.Sorted.
From Stdlib Require DecimalString.
Import ListNotations.

Local Open Scope string_scope.
Local Open Scope Z_scope.

Set Implicit Arguments.
Set Warnings "-register-all".

(** ** Python values *)

(** [x in s] on two [str] values: [x] occurs in [s] as a substring. *)
Fixpoint str_contains (needle hay : string) : bool :=
  String.prefix needle hay ||
  match hay with
  | EmptyString => false
  | String _ hay' => str_contains needle hay'
  end.

(** Truth value of a [str]-or-[None] object: [None] and the empty string are
    false. *)
Definition truthy (v : option string) : bool :=
  match v with
  | None => false
  | Some EmptyString => false
  | Some _ => true
  end.

(** What an f-string prints for a [str]-or-[None] object. *)
Definition py_str (v : option string) : string :=
  match v with
  | None => "None"
  | Some s => s
  end.

Definition string_of_Z (z : Z) : string :=
  DecimalString.NilZero.string_of_int (Z.to_int z).

(** ** Exceptions *)

Inductive exn : Type :=
| RequestException (e : string)   (* raised by requests.get *)
| HTTPError (status : Z)          (* raised by raise_for_status *)
| ParseError                      (* raised by ET.fromstring *)
| TypeError                       (* [x in None] *)
| ValueError                      (* a text parser of pandas; int(NaN);
                                     ET.fromstring on a multi-byte encoding *)
| OverflowError                   (* int(inf) *)
| LookupError                     (* ET.fromstring on an unknown encoding *)
| IndexError.                     (* a list index out of range *)

Inductive exc (A : Type) : Type :=
| Ok (a : A)
| Raise (e : exn).

Arguments Ok {A} a.
Arguments Raise {A} e.

Definition bind {A B : Type} (m : exc A) (k : A -> exc B) : exc B :=
  match m with
  | Ok a => k a
  | Raise e => Raise e
  end.

Notation "x <- m ;; k" := (bind m (fun x => k))
  (at level 61, m at next level, right associativity).

(** [needle in hay] where [hay] may be [None]: Python raises [TypeError]
    ("argument of type 'NoneType' is not iterable"). *)
Definition py_in (needle : string) (hay : option string) : exc bool :=
  match hay with
  | None => Raise TypeError
  | Some h => Ok (str_contains needle h)
  end.

(** ** XML (xml.etree.ElementTree) *)

Inductive element : Type :=
| Element (tag : string) (text : option string) (children : list element).

Definition tag (e : element) : string :=
  match e with Element t _ _ => t end.

Definition text (e : element) : option string :=
  match e with Element _ x _ => x end.

Definition children (e : element) : list element :=
  match e with Element _ _ cs => cs end.

(** [e.find(t)]: the first child of [e] with tag [t], or [None]. *)
Definition find (t : string) (e : element) : option element :=
  List.find (fun c => String.eqb (tag c) t) (children e).

(** All proper descendants of [e] in document order. *)
Fixpoint descendants (e : element) : list element :=
  match e with
  | Element _ _ cs => flat_map (fun c => c :: descendants c) cs
  end.

(** [root.findall('.//row')]. *)
Definition findall_rows (root : element) : list element :=
  filter (fun c => String.eqb (tag c) "row") (descendants root).

(** [row.find(t).text if row.find(t) is not None else ""]. *)
Definition field_text (row : element) (t : string) : option string :=
  match find t row with
  | Some c => text c
  | None => Some EmptyString
  end.

(** ** Record fetcher and filter: [query_real_estate] *)

(** The dictionary [data] built for a retained row; the comment gives the
    key of each field. *)
Record filtered_row : Type := mk_filtered_row {
  rcpt_yr   : option string;   (* "접수연도" *)
  cgg_nm    : option string;   (* "자치구명" *)
  stdg_nm   : option string;   (* "법정동명" *)
  mno       : option string;   (* "본번" *)
  sno       : option string;   (* "부번" *)
  bldg_nm   : option string;   (* "건물명" *)
  ctrt_day  : option string;   (* "계약일" *)
  thing_amt : option string;   (* "물건금액(만원)" *)
  arch_area : option string    (* "건물면적(㎡)" *)
}.

Definition data_of_row (row : element) : filtered_row :=
  {| rcpt_yr   := field_text row "RCPT_YR";
     cgg_nm    := field_text row "CGG_NM";
     stdg_nm   := field_text row "STDG_NM";
     mno       := field_text row "MNO";
     sno       := field_text row "SNO";
     bldg_nm   := field_text row "BLDG_NM";
     ctrt_day  := field_text row "CTRT_DAY";
     thing_amt := field_text row "THING_AMT";
     arch_area := field_text row "ARCH_AREA" |}.

(** [district in cgg_nm and (not dong or dong in stdg_nm)], evaluated left
    to right with Python's short circuits. *)
Definition keep_row (district : string) (dong : option string)
    (cgg stdg : option string) : exc bool :=
  c <- py_in district cgg ;;
  if negb c then Ok false
  else if negb (truthy dong) then Ok true
  else py_in (py_str dong) stdg.

(** The loop over [rows] (lines 44 to 63). *)
Fixpoint filter_rows (district : string) (dong : option string)
    (rows : list element) : exc (list filtered_row) :=
  match rows with
  | [] => Ok []
  | row :: rest =>
      b <- keep_row district dong (field_text row "CGG_NM")
                    (field_text row "STDG_NM") ;;
      out <- filter_rows district dong rest ;;
      Ok (if b then data_of_row row :: out else out)
  end.

(** What [requests.get] does with the URL: it raises, or it returns a
    response.  The body is classified by what [ET.fromstring] does with
    it: it raises [ParseError] on a body that is not well-formed, it raises
    another exception on a body it cannot decode ([ValueError] when a
    multi-byte encoding is declared, [LookupError] when the encoding is
    unknown), or it returns the root. *)
Inductive xml_body : Type :=
| Malformed
| Unreadable (e : exn)
| WellFormed (root : element).

Record response : Type := mk_response {
  status_code : Z;
  content : xml_body
}.

Inductive http_result : Type :=
| GetRaises (e : string)
| GetReturns (r : response).

(** [response.raise_for_status()]. *)
Definition raise_for_status (r : response) : exc unit :=
  if (400 <=? status_code r) && (status_code r <? 600)
  then Raise (HTTPError (status_code r))
  else Ok tt.

Definition fromstring (b : xml_body) : exc element :=
  match b with
  | Malformed => Raise ParseError
  | Unreadable e => Raise e
  | WellFormed root => Ok root
  end.

Definition base_url (api_key : string) (start end_ : Z) : string :=
  "http://openapi.seoul.go.kr:8088/" ++ api_key ++
  "/xml/tbLnOpendataRtmsV/" ++ string_of_Z start ++ "/" ++ string_of_Z end_.

(** Messages shown to the user through streamlit. *)
Inductive ui_message : Type :=
| StError (what : string) (e : exn)
| StInfo (what : string)
| StWarning (what : string).

(** [query_real_estate]: the messages it shows and how it ends. *)
Definition query_real_estate (get : string -> http_result)
    (api_key district : string) (dong : option string) (start end_ : Z)
    : list ui_message * exc (list filtered_row) :=
  let attempt :=
    match get (base_url api_key start end_) with
    | GetRaises e => Raise (RequestException e)
    | GetReturns r => _ <- raise_for_status r ;; Ok r
    end in
  match attempt with
  | Raise e => ([StError "API 호출 실패" e], Ok [])
  | Ok r =>
      ([], root <- fromstring (content r) ;;
           filter_rows district dong (findall_rows root))
  end.

(** ** Numbers: binary64 *)

(** A float that is not NaN: the rational a finite float denotes, or an
    infinity. *)
Inductive number : Type :=
| Fin (q : Q)
| PosInf
| NegInf.

(** [x <= y]. *)
Definition num_leb (x y : number) : bool :=
  match x, y with
  | NegInf, _ => true
  | _, PosInf => true
  | Fin a, Fin b => Qle_bool a b
  | _, _ => false
  end.

(** [x == y]. *)
Definition num_eqb (x y : number) : bool := num_leb x y && num_leb y x.

(** [n / d] rounded to an integer, halves to the even neighbour. *)
Definition round_half_even (n : Z) (d : positive) : Z :=
  let fl := n / Zpos d in
  match 2 * (n mod Zpos d) ?= Zpos d with
  | Lt => fl
  | Gt => fl + 1
  | Eq => if Z.even fl then fl else fl + 1
  end.

(** [floor (log2 (n / d))]. *)
Definition floor_log2 (n d : positive) : Z :=
  let k := Z.log2 (Zpos n) - Z.log2 (Zpos d) in
  let reaches :=
    if 0 <=? k then Zpos d * 2 ^ k <=? Zpos n
    else Zpos d <=? Zpos n * 2 ^ (- k) in
  if reaches then k else k - 1.

(** The binary64 number nearest to the positive rational [n / d]: 53
    significant bits, the last bit of weight 2^-1074 at least, halves to
    even; [None] from 2^1024 - 2^970 on, where the float is infinite. *)
Definition round_pos (n d : positive) : option Q :=
  let e := Z.max (floor_log2 n d - 52) (-1074) in
  if 0 <=? e then
    let m := round_half_even (Zpos n) (d * Z.to_pos (2 ^ e)) in
    if 2 ^ 1024 <=? m * 2 ^ e then None
    else Some (inject_Z (m * 2 ^ e))
  else
    let m := round_half_even (Zpos n * 2 ^ (- e)) d in
    Some (Qred (m # Z.to_pos (2 ^ (- e)))).

(** Rounding of an exact result to binary64 (to nearest, ties to even). *)
Definition round (q : Q) : number :=
  match Qnum q with
  | Z0 => Fin 0
  | Zpos n =>
      match round_pos n (Qden q) with
      | Some r => Fin r
      | None => PosInf
      end
  | Zneg n =>
      match round_pos n (Qden q) with
      | Some r => Fin (- r)
      | None => NegInf
      end
  end.

(** [x + y] on two cells. *)
Definition num_add (x y : option number) : option number :=
  match x, y with
  | Some (Fin a), Some (Fin b) => Some (round (a + b))
  | Some (Fin _), Some i => Some i
  | Some i, Some (Fin _) => Some i
  | Some PosInf, Some PosInf => Some PosInf
  | Some NegInf, Some NegInf => Some NegInf
  | _, _ => None
  end.

(** [x / y] on two cells, as numpy divides: NaN propagates, an infinity
    over an infinity and zero over zero are NaN, and a finite quotient is
    rounded. *)
Definition num_div (x y : option number) : option number :=
  match x, y with
  | Some (Fin a), Some (Fin b) =>
      if Qeq_bool b 0 then
        if Qeq_bool a 0 then None
        else Some (if Qle_bool 0 a then PosInf else NegInf)
      else Some (round (a / b))
  | Some (Fin _), Some _ => Some (Fin 0)
  | Some PosInf, Some (Fin b) => Some (if Qle_bool 0 b then PosInf else NegInf)
  | Some NegInf, Some (Fin b) => Some (if Qle_bool 0 b then NegInf else PosInf)
  | _, _ => None
  end.

(** ** Tabular converter: [convert_data] *)

Record date : Type := mk_date {
  year : Z;
  month : Z;
  day : Z
}.

(** The text parsers of pandas: each returns a value or raises. *)
Class Parsers : Type := {
  strptime_Ymd : string -> exc date;   (* one cell under format='%Y%m%d' *)
  str_to_number : string -> exc number (* one cell of pd.to_numeric *)
}.

(** [errors='coerce']: a cell whose parse raises becomes NaT or NaN. *)
Definition coerce {A : Type} (m : exc A) : option A :=
  match m with
  | Ok a => Some a
  | Raise _ => None
  end.

Section Converter.

Context {P : Parsers}.

(** One cell of [pd.to_datetime(col, format='%Y%m%d', errors='coerce')];
    a [None] cell is NaT. *)
Definition to_datetime (v : option string) : option date :=
  match v with
  | None => None
  | Some s => coerce (strptime_Ymd s)
  end.

(** One cell of [pd.to_numeric(col, errors='coerce')]; a [None] cell is
    NaN, and so is a text that reads as NaN. *)
Definition to_numeric (v : option string) : option number :=
  match v with
  | None => None
  | Some s => coerce (str_to_number s)
  end.

End Converter.

(** Truth value of a number: zero is false, everything else, NaN
    included, is true. *)
Definition num_truthy (x : option number) : bool :=
  match x with
  | Some (Fin q) => negb (Qeq_bool q 0)
  | _ => true
  end.

(** [x > 0]; false on NaN. *)
Definition num_gt0 (x : option number) : bool :=
  match x with
  | None => false
  | Some v => negb (num_leb v (Fin 0))
  end.

(** The lambda of lines 81 and 82. *)
Definition unit_price_of (amount area : option number) : option number :=
  if num_truthy area && num_gt0 area then num_div amount area else None.

(** A row of the converted table; the text columns keep their keys, the
    last column is "단가(만원/㎡)". *)
Record transaction : Type := mk_transaction {
  t_rcpt_yr   : option string;
  t_cgg_nm    : option string;
  t_stdg_nm   : option string;
  t_mno       : option string;
  t_sno       : option string;
  t_bldg_nm   : option string;
  t_ctrt_day  : option date;
  t_thing_amt : option number;
  t_arch_area : option number;
  unit_price  : option number
}.

Definition table : Type := list transaction.

Section ConvertData.

Context {P : Parsers}.

Definition convert_row (r : filtered_row) : transaction :=
  let d := to_datetime (ctrt_day r) in
  let amount := to_numeric (thing_amt r) in
  let area := to_numeric (arch_area r) in
  {| t_rcpt_yr   := rcpt_yr r;
     t_cgg_nm    := cgg_nm r;
     t_stdg_nm   := stdg_nm r;
     t_mno       := mno r;
     t_sno       := sno r;
     t_bldg_nm   := bldg_nm r;
     t_ctrt_day  := d;
     t_thing_amt := amount;
     t_arch_area := area;
     unit_price  := unit_price_of amount area |}.

(** [convert_data]: an empty input gives the empty table; otherwise the
    three columns are parsed and the unit-price column is added. *)
Definition convert_data (results : list filtered_row) : table :=
  match results with
  | [] => []
  | _ => map convert_row results
  end.

End ConvertData.

(** ** The reference parsers *)

Definition digit_of (c : ascii) : option Z :=
  let n := Z.of_nat (nat_of_ascii c) in
  if (48 <=? n) && (n <=? 57) then Some (n - 48) else None.

(** The number written by a string of decimal digits, most significant
    first; [None] if a character is not a digit. *)
Fixpoint digits_from (acc : Z) (s : string) : option Z :=
  match s with
  | EmptyString => Some acc
  | String c s' =>
      match digit_of c with
      | Some d => digits_from (10 * acc + d) s'
      | None => None
      end
  end.

Definition digits (s : string) : option Z :=
  match s with
  | EmptyString => None
  | _ => digits_from 0 s
  end.

Definition is_leap (y : Z) : bool :=
  ((y mod 4 =? 0) && negb (y mod 100 =? 0)) || (y mod 400 =? 0).

Definition days_in_month (y m : Z) : Z :=
  if m =? 2 then (if is_leap y then 29 else 28)
  else if (m =? 4) || (m =? 6) || (m =? 9) || (m =? 11) then 30
  else 31.

Definition valid_date (d : date) : bool :=
  (1 <=? month d) && (month d <=? 12) &&
  (1 <=? day d) && (day d <=? days_in_month (year d) (month d)).

(** Eight digits [YYYYMMDD] naming a day of the calendar. *)
Definition reference_strptime (s : string) : exc date :=
  if (String.length s =? 8)%nat then
    match digits (substring 0 4 s), digits (substring 4 2 s),
          digits (substring 6 2 s) with
    | Some y, Some m, Some d =>
        let r := {| year := y; month := m; day := d |} in
        if valid_date r then Ok r else Raise ValueError
    | _, _, _ => Raise ValueError
    end
  else Raise ValueError.

Fixpoint split_at_dot (s : string) : string * option string :=
  match s with
  | EmptyString => (EmptyString, None)
  | String c s' =>
      if Ascii.eqb c "."%char then (EmptyString, Some s')
      else let '(a, b) := split_at_dot s' in (String c a, b)
  end.

(** An unsigned decimal: digits, then optionally a dot and digits. *)
Definition unsigned_decimal (s : string) : option Q :=
  match split_at_dot s with
  | (a, None) => option_map inject_Z (digits a)
  | (a, Some b) =>
      match digits a, digits b with
      | Some n, Some f =>
          Some (inject_Z n + inject_Z f / inject_Z (10 ^ Z.of_nat (String.length b)))%Q
      | _, _ => None
      end
  end.

(** A decimal with an optional minus sign, read as the nearest float; or
    an infinity. *)
Definition reference_to_number (s : string) : exc number :=
  if String.eqb s "inf" then Ok PosInf
  else if String.eqb s "-inf" then Ok NegInf
  else
    let r :=
      match s with
      | String "-"%char s' => option_map Qopp (unsigned_decimal s')
      | _ => unsigned_decimal s
      end in
    match r with
    | Some q => Ok (round q)
    | None => Raise ValueError
    end.

Definition reference_parsers : Parsers :=
  {| strptime_Ymd := reference_strptime;
     str_to_number := reference_to_number |}.

(** ** The view built by [main] *)

Definition notnull {A : Type} (v : option A) : bool :=
  match v with
  | Some _ => true
  | None => false
  end.

(** The values of a column that are not NaN, in order. *)
Fixpoint dropna_values {A : Type} (col : list (option A)) : list A :=
  match col with
  | [] => []
  | Some v :: col' => v :: dropna_values col'
  | None :: col' => dropna_values col'
  end.

Definition date_leb (a b : date) : bool :=
  (year a <? year b) ||
  ((year a =? year b) &&
   ((month a <? month b) ||
    ((month a =? month b) && (day a <=? day b)))).

Definition date_eqb (a b : date) : bool :=
  (year a =? year b) && (month a =? month b) && (day a =? day b).

Definition date_ltb (a b : date) : bool :=
  date_leb a b && negb (date_eqb a b).

(** The mask of lines 131 and 132; a comparison with NaT is false. *)
Definition in_date_range (lo hi : date) (t : transaction) : bool :=
  match t_ctrt_day t with
  | Some d => date_leb lo d && date_leb d hi
  | None => false
  end.

(** Lines 126 to 132: [date_range] is what the date widget returns. *)
Definition current_table (df : table) (date_range : list date) : table :=
  if negb (Nat.eqb (List.length df) 0) &&
     existsb (fun t => notnull (t_ctrt_day t)) df
  then
    match date_range with
    | [lo; hi] => filter (in_date_range lo hi) df
    | _ => df
    end
  else df.

(** *** Summary KPIs *)

(** The means and sums of the libraries, whose order of additions is
    not the program's: each takes the values it is over, in order. *)
Class Summation : Type := {
  series_mean_of : list number -> option number;
    (* Series.mean() over the values of the column that are not NaN *)
  group_mean_of : list number -> option number;
    (* the mean of one group of groupby(...).mean() *)
  py_sum : list Q -> number
    (* Python's sum() of a list of finite floats *)
}.

Section Kpis.

Context {S : Summation}.

(** [Series.mean()]: the mean of the values that are not NaN; NaN when
    there is none. *)
Definition series_mean (col : list (option number)) : option number :=
  match dropna_values col with
  | [] => None
  | vs => series_mean_of vs
  end.

(** [col.mean() if not col.empty else 0]. *)
Definition kpi_mean (col : list (option number)) : option number :=
  if negb (Nat.eqb (List.length col) 0) then series_mean col
  else Some (Fin 0).

Record kpis : Type := mk_kpis {
  total_count : nat;
  avg_price : option number;
  avg_unit_price : option number
}.

(** Lines 137 to 139. *)
Definition summary_kpis (df : table) : kpis :=
  {| total_count := List.length df;
     avg_price := kpi_mean (map t_thing_amt df);
     avg_unit_price := kpi_mean (map unit_price df) |}.

End Kpis.

(** The reference sums: the additions are made from left to right, each
    rounded, and a mean is the sum divided by the count. *)
Definition sequential_sum (vs : list number) : option number :=
  fold_left (fun acc v => num_add acc (Some v)) vs (Some (Fin 0)).

Definition sequential_mean (vs : list number) : option number :=
  num_div (sequential_sum vs)
          (Some (Fin (inject_Z (Z.of_nat (List.length vs))))).

Definition sequential_py_sum (qs : list Q) : number :=
  fold_left (fun acc q =>
               match acc with
               | Fin a => round (a + q)
               | i => i
               end) qs (Fin 0).

Definition reference_summation : Summation :=
  {| series_mean_of := sequential_mean;
     group_mean_of := sequential_mean;
     py_sum := sequential_py_sum |}.

(** *** Monthly mean unit price *)

(** [df.dropna(subset=['계약일', '단가(만원/㎡)'])]. *)
Definition df_time (df : table) : table :=
  filter (fun t => notnull (t_ctrt_day t) && notnull (unit_price t)) df.

(** [to_period('M').to_timestamp()]: the first day of the month. *)
Definition month_start (d : date) : date :=
  {| year := year d; month := month d; day := 1 |}.

(** The "년월" cell of a row of [df_time]. *)
Definition year_month (t : transaction) : option date :=
  option_map month_start (t_ctrt_day t).

Definition in_month (k : date) (t : transaction) : bool :=
  match year_month t with
  | Some m => date_eqb m k
  | None => false
  end.

(** The distinct keys of a group-by, in increasing order. *)
Fixpoint insert_key (k : date) (ks : list date) : list date :=
  match ks with
  | [] => [k]
  | k' :: ks' =>
      if date_eqb k k' then ks
      else if date_leb k k' then k :: ks
      else k' :: insert_key k ks'
  end.

Definition group_keys (col : list date) : list date :=
  fold_right insert_key [] col.

(** [df_time.groupby('년월')['단가(만원/㎡)'].mean().reset_index()]: one
    row per month, months increasing. *)
Definition monthly_mean {S : Summation} (df : table)
    : list (date * option number) :=
  let dft := df_time df in
  map (fun k =>
         (k, group_mean_of
               (dropna_values (map unit_price (filter (in_month k) dft)))))
      (group_keys (dropna_values (map year_month dft))).

(** *** Top transactions *)

Section NLargest.

Variable A : Type.
Variable key : A -> option number.

(** [key y > key x]; false when either is NaN. *)
Definition key_gtb (y x : A) : bool :=
  match key y, key x with
  | Some b, Some a => negb (num_leb b a)
  | _, _ => false
  end.

(** [x] goes before the first row whose key is not greater than its own. *)
Fixpoint insert_desc (x : A) (l : list A) : list A :=
  match l with
  | [] => [x]
  | y :: l' => if key_gtb y x then y :: insert_desc x l' else x :: l
  end.

(** Rows by decreasing key, rows of equal key in their original order. *)
Definition sort_desc (l : list A) : list A :=
  fold_right insert_desc [] l.

(** [df.nlargest(n, column)] with the default [keep='first'], on a frame
    whose column holds no NaN. *)
Definition nlargest (n : nat) (l : list A) : list A :=
  firstn n (sort_desc l).

End NLargest.

(** Lines 181 to 183; the second [to_numeric] leaves a numeric column as
    it is. *)
Definition top5 (df : table) : table :=
  let df_top5 := filter (fun t => notnull (t_thing_amt t)) df in
  nlargest t_thing_amt 5 df_top5.

(** *** Addresses for the map *)

Definition option_string_eqb (a b : option string) : bool :=
  match a, b with
  | Some x, Some y => String.eqb x y
  | None, None => true
  | _, _ => false
  end.

(** [row['부번'] in ['0000', '', None]]. *)
Definition no_sub_lot (v : option string) : bool :=
  existsb (option_string_eqb v) [Some "0000"; Some EmptyString; None].

Definition address_base (t : transaction) : string :=
  "서울특별시 " ++ py_str (t_cgg_nm t) ++ " " ++ py_str (t_stdg_nm t) ++ " " ++
  py_str (t_mno t).

(** Lines 201 to 205: the address handed to [get_coordinates], or [None]
    for a row that is skipped. *)
Definition address_of (t : transaction) : option string :=
  if truthy (t_mno t) then
    if no_sub_lot (t_sno t) then Some (address_base t)
    else Some (address_base t ++ "-" ++ py_str (t_sno t))
  else None.

Record marker : Type := mk_marker {
  lat : Q;
  lon : Q;
  m_bldg_nm : option string;
  m_address : string;
  m_thing_amt : option number;
  m_unit_price : option number
}.

(** Lines 199 to 215, over a geocoder that answers with coordinates or
    [None]. *)
Fixpoint map_data (get_coordinates : string -> option (Q * Q)) (df : table)
    : list marker :=
  match df with
  | [] => []
  | t :: df' =>
      let rest := map_data get_coordinates df' in
      match address_of t with
      | Some address =>
          match get_coordinates address with
          | Some coords =>
              {| lat := fst coords; lon := snd coords;
                 m_bldg_nm := t_bldg_nm t; m_address := address;
                 m_thing_amt := t_thing_amt t;
                 m_unit_price := unit_price t |} :: rest
          | None => rest
          end
      | None => rest
      end
  end.

(** *** The start of [main] *)

Definition real_estate_api_key : string := "626e626f4a676b7739357a62577661".

(** [main] from the button to line 118: the messages shown so far, and
    the rows handed to [convert_data] ([None] when [main] returns here). *)
Definition main_query (get : string -> http_result)
    (district : string) (dong : option string) (start end_ : Z)
    : list ui_message * exc (option (list filtered_row)) :=
  if negb (truthy (Some district)) then
    ([StWarning "자치구명을 입력하세요."], Ok None)
  else
    let '(shown, r) :=
      query_real_estate get real_estate_api_key district dong start end_ in
    match r with
    | Raise e => (shown, Raise e)
    | Ok [] =>
        ((shown ++ [StInfo "해당 조건의 실거래 데이터가 없습니다."])%list, Ok None)
    | Ok results => (shown, Ok (Some results))
    end.

(** *** The values [main] computes from the rows *)

(** What lines 120 to 215 compute: the table shown in full, and the KPIs,
    the trend, the top five and the markers of the table after the date
    filter.  What is drawn from the last two, and what can fail while it is
    drawn, is [top5_cards] and [render_map]. *)
Record view : Type := mk_view {
  shown_table : table;                     (* st.dataframe(df), line 122 *)
  kpi : kpis;
  trend : list (date * option number);
  top : table;
  markers : list marker
}.

Definition view_of {P : Parsers} {S : Summation}
    (get_coordinates : string -> option (Q * Q))
    (results : list filtered_row) (date_range : list date) : view :=
  let df := convert_data results in
  let cur := current_table df date_range in
  {| shown_table := df;
     kpi := summary_kpis cur;
     trend := monthly_mean cur;
     top := top5 cur;
     markers := map_data get_coordinates cur |}.

(** ** What [main] draws from the table *)





(** [df.dropna(subset=['단가(만원/㎡)', '건물면적(㎡)'])] of line 160: the
    rows behind the histogram and the scatter plot. *)
Definition df_analysis (df : table) : table :=
  filter (fun t => notnull (unit_price t) && notnull (t_arch_area t)) df.

(** [int(x)] on a float: the integer part, towards zero; NaN raises
    [ValueError] and an infinity [OverflowError]. *)
Definition py_int (x : option number) : exc Z :=
  match x with
  | None => Raise ValueError
  | Some (Fin q) => Ok (Z.quot (Qnum q) (Zpos (Qden q)))
  | Some _ => Raise OverflowError
  end.

(** [name if name else "건물명 없음"]. *)
Definition name_or_default (v : option string) : string :=
  if truthy v then py_str v else "건물명 없음".

(** One column of the top-five strip: rank, label, amount as an integer,
    area, contract day ([None] is shown as N/A). *)
Record card : Type := mk_card {
  c_rank : nat;
  c_label : string;
  c_value : Z;
  c_area : option number;
  c_day : option date
}.

(** The loop of lines 186 to 192 from index [idx] on; [cols] has five
    entries. *)
Fixpoint top5_cards_from (idx : nat) (rows : table) : exc (list card) :=
  match rows with
  | [] => Ok []
  | row :: rest =>
      if (5 <=? idx)%nat then Raise IndexError
      else
        v <- py_int (t_thing_amt row) ;;
        cs <- top5_cards_from (S idx) rest ;;
        Ok ({| c_rank := S idx;
               c_label := name_or_default (t_bldg_nm row);
               c_value := v;
               c_area := t_arch_area row;
               c_day := t_ctrt_day row |} :: cs)
  end.

(** Lines 184 to 194: the cards, or [None] when the note "no top
    transaction" is shown instead. *)
Definition top5_cards (top5_rows : table) : exc (option (list card)) :=
  match top5_rows with
  | [] => Ok None
  | _ => cs <- top5_cards_from 0 top5_rows ;; Ok (Some cs)
  end.

(** A marker of the map: where it stands, its tooltip, and the name, the
    address, the amount and the unit price of its popup ([None] for a
    number that is not shown). *)
Record pin : Type := mk_pin {
  pin_location : Q * Q;
  pin_tooltip : string;
  pin_name : string;
  pin_address : string;
  pin_amount : option Z;
  pin_unit : option number
}.

Record folium_map : Type := mk_folium_map {
  center : option number * option number;
  pins : list pin
}.

(** [int(x) if x else 'N/A']: zero is not shown; NaN and the infinities
    are true, so [int] is called on them. *)
Definition popup_amount (x : option number) : exc (option Z) :=
  if num_truthy x then z <- py_int x ;; Ok (Some z) else Ok None.

Section RenderMap.

Context {S : Summation}.

(** Python's [round(x, 2)] on a finite float. *)
Variable round2 : Q -> Q.

(** [round(x, 2) if x else 'N/A']: zero is not shown, an infinity is left
    as it is, and an absent unit price shows no number. *)
Definition popup_unit (x : option number) : option number :=
  match x with
  | None => None
  | Some (Fin q) => if Qeq_bool q 0 then None else Some (Fin (round2 q))
  | Some i => Some i
  end.

(** The loop of lines 221 to 232. *)
Fixpoint pins_of (md : list marker) : exc (list pin) :=
  match md with
  | [] => Ok []
  | d :: md' =>
      a <- popup_amount (m_thing_amt d) ;;
      ps <- pins_of md' ;;
      Ok ({| pin_location := (lat d, lon d);
             pin_tooltip := name_or_default (m_bldg_nm d);
             pin_name := py_str (m_bldg_nm d);
             pin_address := m_address d;
             pin_amount := a;
             pin_unit := popup_unit (m_unit_price d) |} :: ps)
  end.

(** [sum(values) / len(map_data)] of lines 217 and 218. *)
Definition average (values : list Q) : option number :=
  num_div (Some (py_sum values))
          (Some (Fin (inject_Z (Z.of_nat (List.length values))))).

(** Lines 216 to 236: the map centred on the mean position, or [None]
    when the note "no position" is shown instead. *)
Definition render_map (md : list marker) : exc (option folium_map) :=
  match md with
  | [] => Ok None
  | _ =>
      ps <- pins_of md ;;
      Ok (Some {| center := (average (map lat md), average (map lon md));
                  pins := ps |})
  end.

End RenderMap.

(** ** Geocoder: [get_coordinates] behind [st.cache_data] *)

(** What the provider does with one request: it raises, it finds nothing,
    or it finds a location. *)
Inductive geocode_outcome : Type :=
| GeocodeRaises (e : string)
| GeocodeNothing
| GeocodeLocation (latitude longitude : Q).

(** One run of the body of [get_coordinates]: what it returns, the
    seconds it sleeps, and the error it shows. *)
Record lookup : Type := mk_lookup {
  l_result : option (Q * Q);
  l_slept : nat;
  l_error : option string
}.

Definition get_coordinates_body (o : geocode_outcome) : lookup :=
  match o with
  | GeocodeRaises e =>
      {| l_result := None; l_slept := 0; l_error := Some e |}
  | GeocodeNothing =>
      {| l_result := None; l_slept := 1; l_error := None |}
  | GeocodeLocation la lo =>
      {| l_result := Some (la, lo); l_slept := 1; l_error := None |}
  end.

(** The state the map loop threads: the cache of [st.cache_data] (latest
    entry first), the requests sent to the provider with their outcomes
    (latest first), and the seconds slept. *)
Record geo_state : Type := mk_geo_state {
  cache : list (string * option (Q * Q));
  asked : list (string * geocode_outcome);
  slept : nat
}.

Fixpoint cache_lookup (address : string)
    (c : list (string * option (Q * Q))) : option (option (Q * Q)) :=
  match c with
  | [] => None
  | (a, r) :: c' => if String.eqb address a then Some r else cache_lookup address c'
  end.

(** The decorated [get_coordinates]: a cached address is answered from the
    cache; otherwise the body runs on the provider's next outcome and its
    result is cached.  [geocode n a] is the outcome of request number [n]
    when it asks for [a]. *)
Definition cached_get_coordinates (geocode : nat -> string -> geocode_outcome)
    (address : string) (s : geo_state) : option (Q * Q) * geo_state :=
  match cache_lookup address (cache s) with
  | Some r => (r, s)
  | None =>
      let o := geocode (List.length (asked s)) address in
      let l := get_coordinates_body o in
      (l_result l,
       {| cache := (address, l_result l) :: cache s;
          asked := (address, o) :: asked s;
          slept := slept s + l_slept l |})
  end.

(** Lines 199 to 215 with the decorated [get_coordinates]. *)
Fixpoint map_data_run (geocode : nat -> string -> geocode_outcome)
    (df : table) (s : geo_state) : list marker * geo_state :=
  match df with
  | [] => ([], s)
  | t :: df' =>
      match address_of t with
      | Some address =>
          let '(coords, s1) := cached_get_coordinates geocode address s in
          let '(rest, s2) := map_data_run geocode df' s1 in
          (match coords with
           | Some c =>
               {| lat := fst c; lon := snd c;
                  m_bldg_nm := t_bldg_nm t; m_address := address;
                  m_thing_amt := t_thing_amt t;
                  m_unit_price := unit_price t |} :: rest
           | None => rest
           end, s2)
      | None => map_data_run geocode df' s
      end
  end.

(** The answer the cache holds for an address, [None] when it holds
    none. *)
Definition cached_answer (s : geo_state) (address : string) : option (Q * Q) :=
  match cache_lookup address (cache s) with
  | Some r => r
  | None => None
  end.

(** The provider returned (it did not raise). *)
Definition returned (o : geocode_outcome) : bool :=
  match o with
  | GeocodeRaises _ => false
  | _ => true
  end.

(** ** Notions used in the statements *)

(** The condition of line 49 on a row whose two fields are strings. *)
Definition retained (district : string) (dong : option string)
    (row : element) : bool :=
  str_contains district (py_str (field_text row "CGG_NM")) &&
  (negb (truthy dong) ||
   str_contains (py_str dong) (py_str (field_text row "STDG_NM"))).

Definition has_text (row : element) : Prop :=
  field_text row "CGG_NM" <> None /\ field_text row "STDG_NM" <> None.

(** A dictionary read back as a [<row>] element with the provider's tags. *)
Definition row_of_data (d : filtered_row) : element :=
  Element "row" None
    [ Element "RCPT_YR" (rcpt_yr d) [];
      Element "CGG_NM" (cgg_nm d) [];
      Element "STDG_NM" (stdg_nm d) [];
      Element "MNO" (mno d) [];
      Element "SNO" (sno d) [];
      Element "BLDG_NM" (bldg_nm d) [];
      Element "CTRT_DAY" (ctrt_day d) [];
      Element "THING_AMT" (thing_amt d) [];
      Element "ARCH_AREA" (arch_area d) [] ].

(** How a call of [query_real_estate] ends when a failure is handled: an
    error is shown and the empty list is returned. *)
Definition reports_and_returns_empty
    (res : list ui_message * exc (list filtered_row)) : Prop :=
  exists what e, fst res = [StError what e] /\ snd res = Ok [].

(** A dictionary with the three parsed fields as given and the text fields
    of one fixed parcel, for running the converter. *)
Definition sample_row (name day amount area : string) : filtered_row :=
  {| rcpt_yr := Some "2023"; cgg_nm := Some "강서구"; stdg_nm := Some "화곡동";
     mno := Some "0012"; sno := Some "0003"; bldg_nm := Some name;
     ctrt_day := Some day; thing_amt := Some amount; arch_area := Some area |}.

(** [x > 0] on a cell. *)
Definition is_positive (x : option number) : Prop :=
  x = Some PosInf \/ exists b, x = Some (Fin b) /\ (0 < b)%Q.

Definition is_infinite (x : option number) : Prop :=
  x = Some PosInf \/ x = Some NegInf.

(** Rows compared by a numeric column: both cells hold a number and the
    first is at least the second. *)
Definition key_ge {A : Type} (key : A -> option number) (x y : A) : Prop :=
  exists a b, key x = Some a /\ key y = Some b /\ num_leb b a = true.

(** The cell of [x] holds a number equal to [v]. *)
Definition key_is {A : Type} (key : A -> option number) (v : number) (x : A)
    : bool :=
  match key x with
  | Some a => num_eqb a v
  | None => false
  end.



(** A row on which line 49 raises: its district element has no text, or
    it matches the district, a sub-district is asked for, and its
    sub-district element has no text. *)
Definition breaks_filter (district : string) (dong : option string)
    (row : element) : Prop :=
  field_text row "CGG_NM" = None \/
  (exists c, field_text row "CGG_NM" = Some c /\
             str_contains district c = true /\
             truthy dong = true /\ field_text row "STDG_NM" = None).

(** The sub-district test of line 49 on a dictionary. *)
Definition dong_matches (dong : option string) (d : filtered_row) : bool :=
  negb (truthy dong) || str_contains (py_str dong) (py_str (stdg_nm d)).

(** * Properties *)

(** ** Strings *)

Lemma prefix_spec (a b : string) :
  String.prefix a b = true <-> exists c, b = a ++ c.
Proof.
  revert b; induction a as [|x a IH]; intros b.
  - split; [intros _; now exists b | intros _; now destruct b].
  - destruct b as [|y b]; simpl.
    + split; [discriminate | intros [c Hc]; discriminate].
    + destruct (Ascii.ascii_dec x y) as [->|Hxy].
      * rewrite IH. split; intros [c Hc]; exists c.
        -- now rewrite Hc.
        -- now injection Hc.
      * split; [discriminate|].
        intros [c Hc]. injection Hc as Hc1 _. congruence.
Qed.

(** [str_contains] is the substring relation. *)
Lemma str_contains_spec (needle hay : string) :
  str_contains needle hay = true <->
  exists a b, hay = a ++ needle ++ b.
Proof.
  induction hay as [|c hay IH].
  - change (str_contains needle EmptyString)
      with (String.prefix needle EmptyString || false).
    rewrite orb_false_r, prefix_spec. split.
    + intros [b Hb]. now exists EmptyString, b.
    + intros [a [b Hab]]. destruct a; [now exists b | discriminate].
  - change (str_contains needle (String c hay))
      with (String.prefix needle (String c hay) || str_contains needle hay).
    rewrite orb_true_iff, IH, prefix_spec. split.
    + intros [[b Hb] | [a [b Hab]]].
      * now exists EmptyString, b.
      * exists (String c a), b. simpl. now rewrite Hab.
    + intros [a [b Hab]]. destruct a as [|x a]; simpl in Hab.
      * left. now exists b.
      * right. injection Hab as _ Hab. now exists a, b.
Qed.

Lemma str_contains_empty (hay : string) : str_contains EmptyString hay = true.
Proof. destruct hay; reflexivity. Qed.

Lemma truthy_Some (s : string) : s <> EmptyString -> truthy (Some s) = true.
Proof. destruct s; [congruence | reflexivity]. Qed.

(** ** Filter *)

Lemma keep_row_text district dong cgg stdg :
  keep_row district dong (Some cgg) (Some stdg) =
  Ok (str_contains district cgg &&
      (negb (truthy dong) || str_contains (py_str dong) stdg)).
Proof.
  unfold keep_row; simpl.
  destruct (str_contains district cgg); simpl; [|reflexivity].
  destruct (truthy dong); reflexivity.
Qed.

(** On rows whose district and sub-district elements carry text (or are
    absent), the loop is a plain filter. *)
Lemma filter_rows_text district dong rows :
  Forall has_text rows ->
  filter_rows district dong rows =
  Ok (map data_of_row (filter (retained district dong) rows)).
Proof.
  induction 1 as [|row rows [Hc Hs] _ IH]; simpl; [reflexivity|].
  unfold retained.
  destruct (field_text row "CGG_NM") as [cgg|]; [|congruence].
  destruct (field_text row "STDG_NM") as [stdg|]; [|congruence].
  rewrite keep_row_text, IH; simpl.
  destruct (_ && _); reflexivity.
Qed.

Lemma data_of_row_of_data (d : filtered_row) :
  data_of_row (row_of_data d) = d.
Proof. destruct d; reflexivity. Qed.

Lemma filter_rows_kept district dong rows out :
  filter_rows district dong rows = Ok out ->
  Forall (fun d => keep_row district dong (cgg_nm d) (stdg_nm d) = Ok true) out.
Proof.
  revert out; induction rows as [|row rows IH]; intros out; simpl.
  - intros [= <-]. constructor.
  - destruct (keep_row district dong _ _) as [b|e] eqn:Hk; simpl; [|discriminate].
    destruct (filter_rows district dong rows) as [out'|e]; simpl; [|discriminate].
    intros [= <-]. destruct b; [constructor|]; auto.
Qed.

Lemma filter_rows_fixed district dong out :
  Forall (fun d => keep_row district dong (cgg_nm d) (stdg_nm d) = Ok true) out ->
  filter_rows district dong (map row_of_data out) = Ok out.
Proof.
  induction 1 as [|d out Hd _ IH]; simpl; [reflexivity|].
  change (field_text (row_of_data d) "CGG_NM") with (cgg_nm d).
  change (field_text (row_of_data d) "STDG_NM") with (stdg_nm d).
  rewrite Hd, IH; simpl. now rewrite data_of_row_of_data.
Qed.

(** C8: filtering is idempotent.  When [filter_rows] has produced [out],
    filtering [out] again (each dictionary read back as a row) with the
    same district and sub-district yields [out]. *)
Theorem filter_rows_idempotent district dong rows out :
  filter_rows district dong rows = Ok out ->
  filter_rows district dong (map row_of_data out) = Ok out.
Proof.
  intros H. apply filter_rows_fixed. exact (filter_rows_kept _ _ _ H).
Qed.

Lemma filter_rows_idempotent_witness :
  let rows :=
    [ Element "row" None
        [Element "CGG_NM" (Some "강서구") []; Element "STDG_NM" (Some "화곡동") [];
         Element "MNO" (Some "0012") []; Element "SNO" None []];
      Element "row" None
        [Element "CGG_NM" (Some "강남구") []; Element "STDG_NM" (Some "역삼동") []];
      Element "row" None
        [Element "CGG_NM" (Some "강서구") []; Element "STDG_NM" (Some "등촌동") []] ] in
  exists out,
    List.length out = 1%nat /\
    filter_rows "강서구" (Some "화곡") rows = Ok out /\
    filter_rows "강서구" (Some "화곡") (map row_of_data out) = Ok out.
Proof.
  intros rows.
  destruct (filter_rows "강서구" (Some "화곡") rows) as [out|e] eqn:H.
  - exists out. split; [|split].
    + vm_compute in H. injection H as <-. reflexivity.
    + reflexivity.
    + exact (filter_rows_idempotent "강서구" (Some "화곡") rows H).
  - vm_compute in H. discriminate H.
Defined.

(** C2 (the code departs from the claim): a row whose district element is
    present without text makes the filter raise [TypeError]; so does a row
    that matches the district and whose sub-district element has no text,
    when a sub-district is asked for.  The claim has such a row dropped
    without a failure. *)
Theorem filter_rows_raises_on_empty_element :
  filter_rows "강서구" (Some EmptyString)
    [ Element "row" None
        [Element "CGG_NM" None []; Element "STDG_NM" (Some "화곡동") []] ]
  = Raise TypeError /\
  filter_rows "강서구" (Some "화곡동")
    [ Element "row" None
        [Element "CGG_NM" (Some "강서구") []; Element "STDG_NM" None []] ]
  = Raise TypeError /\
  filter_rows "강서구" (Some "화곡동")
    [ Element "row" None [Element "MNO" (Some "12") []] ]
  = Ok [] /\
  query_real_estate
    (fun _ => GetReturns
       {| status_code := 200;
          content := WellFormed
            (Element "tbLnOpendataRtmsV" None
               [ Element "list_total_count" (Some "1") [];
                 Element "row" None
                   [Element "CGG_NM" None [];
                    Element "STDG_NM" (Some "화곡동") []] ]) |})
    real_estate_api_key "강서구" (Some EmptyString) 1 1000
  = ([], Raise TypeError).
Proof. repeat split; reflexivity. Qed.

(** ** Fetcher *)

Lemma query_real_estate_handled get api_key district dong start end_ :
  (exists e, get (base_url api_key start end_) = GetRaises e) \/
  (exists r, get (base_url api_key start end_) = GetReturns r /\
             400 <= status_code r < 600) ->
  exists e,
    query_real_estate get api_key district dong start end_ =
    ([StError "API 호출 실패" e], Ok []).
Proof.
  unfold query_real_estate.
  intros [[e He] | [r [Hr Hs]]]; rewrite ?He, ?Hr.
  - now exists (RequestException e).
  - unfold raise_for_status.
    replace (400 <=? status_code r) with true by (symmetry; apply Z.leb_le; lia).
    replace (status_code r <? 600) with true by (symmetry; apply Z.ltb_lt; lia).
    now exists (HTTPError (status_code r)).
Qed.

(** C3 (amended): when the request raises, or the response has a status
    that [raise_for_status] rejects (400 to 599), the fetcher shows one
    error and returns the empty list. *)
Theorem query_real_estate_request_failure get api_key district dong start end_ :
  (exists e, get (base_url api_key start end_) = GetRaises e) \/
  (exists r, get (base_url api_key start end_) = GetReturns r /\
             400 <= status_code r < 600) ->
  reports_and_returns_empty
    (query_real_estate get api_key district dong start end_).
Proof.
  intros H.
  destruct (query_real_estate_handled get api_key district dong start end_ H)
    as [e He].
  rewrite He. now exists "API 호출 실패", e.
Qed.

Lemma query_real_estate_request_failure_witness :
  reports_and_returns_empty
    (query_real_estate
       (fun _ => GetReturns {| status_code := 404; content := Malformed |})
       real_estate_api_key "강서구" None 1 1000).
Proof.
  apply query_real_estate_request_failure.
  right. eexists. split; [reflexivity | simpl; lia].
Defined.

(** C3 as stated fails: a response with status 200 whose body is not
    well-formed XML makes [query_real_estate] raise [ParseError]; nothing is
    shown and nothing is returned. *)
Lemma query_real_estate_parse_error_escapes :
  let get := fun _ : string =>
    GetReturns {| status_code := 200; content := Malformed |} in
  query_real_estate get real_estate_api_key "강서구" None 1 1000
    = ([], Raise ParseError) /\
  ~ reports_and_returns_empty
      (query_real_estate get real_estate_api_key "강서구" None 1 1000).
Proof.
  split; [reflexivity|].
  intros [what [e [H _]]]. discriminate H.
Qed.

(** ** Numbers *)

Lemma num_leb_refl (x : number) : num_leb x x = true.
Proof. destruct x; simpl; auto. apply Qle_bool_iff, Qle_refl. Qed.

Lemma num_leb_trans (x y z : number) :
  num_leb x y = true -> num_leb y z = true -> num_leb x z = true.
Proof.
  destruct x, y, z; simpl; try discriminate; auto.
  rewrite !Qle_bool_iff. apply Qle_trans.
Qed.

Lemma num_leb_total (x y : number) :
  num_leb x y = false -> num_leb y x = true.
Proof.
  destruct x, y; simpl; try discriminate; auto.
  intros H. apply Qle_bool_iff, Qlt_le_weak, Qnot_le_lt.
  intros Hle. apply Qle_bool_iff in Hle. congruence.
Qed.

(** ** Converter *)

Lemma Forall2_map_self {A B : Type} (R : A -> B -> Prop) (f : A -> B) l :
  (forall x, R x (f x)) -> Forall2 R l (map f l).
Proof. intros H; induction l; simpl; constructor; auto. Qed.

Lemma convert_data_map {P : Parsers} (results : list filtered_row) :
  convert_data results = map convert_row results.
Proof. destruct results; reflexivity. Qed.

Lemma Qpositive_test (b : Q) :
  negb (Qeq_bool b 0) && negb (Qle_bool b 0) = true <-> (0 < b)%Q.
Proof.
  rewrite andb_true_iff, !negb_true_iff. split.
  - intros [_ H]. apply Qnot_le_lt. intros Hle.
    apply Qle_bool_iff in Hle. congruence.
  - intros H. split.
    + destruct (Qeq_bool b 0) eqn:E; [|reflexivity].
      apply Qeq_bool_iff in E. rewrite E in H. now apply Qlt_irrefl in H.
    + destruct (Qle_bool b 0) eqn:E; [|reflexivity].
      apply Qle_bool_iff in E. now apply Qlt_not_le in H.
Qed.

Lemma positive_test (x : option number) :
  num_truthy x && num_gt0 x = true <-> is_positive x.
Proof.
  unfold is_positive. destruct x as [[b| |]|]; simpl.
  - rewrite Qpositive_test. split.
    + intros H. right. now exists b.
    + intros [H | [b' [[= <-] H]]]; [discriminate | exact H].
  - split; auto.
  - split; [discriminate|]. intros [H | [b [H _]]]; discriminate.
  - split; [discriminate|]. intros [H | [b [H _]]]; discriminate.
Qed.

Lemma Qpos_nonzero (b : Q) : (0 < b)%Q -> Qeq_bool b 0 = false.
Proof.
  intros H. destruct (Qeq_bool b 0) eqn:E; [|reflexivity].
  apply Qeq_bool_iff in E. rewrite E in H. now apply Qlt_irrefl in H.
Qed.

Lemma num_div_defined (x y : option number) :
  is_positive y ->
  (num_div x y <> None <->
   x <> None /\ ~ (is_infinite x /\ is_infinite y)).
Proof.
  unfold is_infinite. intros [-> | [b [-> Hb]]].
  - destruct x as [[a| |]|]; simpl; split; try congruence.
    + intros _. split; [discriminate|]. intros [[H|H] _]; discriminate.
    + intros [_ H] _. apply H; auto.
    + intros [_ H] _. apply H; auto.
    + intros [H _]. congruence.
  - destruct x as [[a| |]|]; simpl; rewrite ?(Qpos_nonzero Hb); split;
      try congruence.
    + intros _. split; [discriminate|]. intros [[H|H] _]; discriminate.
    + intros _. split; [discriminate|]. intros [_ [H|H]]; discriminate.
    + intros _. split; [discriminate|]. intros [_ [H|H]]; discriminate.
    + intros [H _]. congruence.
Qed.

Lemma unit_price_of_positive (amount area : option number) :
  is_positive area -> unit_price_of amount area = num_div amount area.
Proof.
  intros H. unfold unit_price_of. now rewrite (proj2 (positive_test area) H).
Qed.

Lemma unit_price_of_not_positive (amount area : option number) :
  ~ is_positive area -> unit_price_of amount area = None.
Proof.
  intros H. unfold unit_price_of.
  destruct (num_truthy area && num_gt0 area) eqn:E; [|reflexivity].
  apply positive_test in E. contradiction.
Qed.

Lemma unit_price_of_defined (amount area : option number) :
  unit_price_of amount area <> None <->
  amount <> None /\ is_positive area /\
  ~ (is_infinite amount /\ is_infinite area).
Proof.
  split.
  - intros H.
    assert (Hp : is_positive area).
    { apply positive_test. unfold unit_price_of in H.
      destruct (num_truthy area && num_gt0 area); [reflexivity | congruence]. }
    rewrite (unit_price_of_positive amount Hp) in H.
    apply (num_div_defined amount Hp) in H. tauto.
  - intros [Ha [Hp Hi]]. rewrite (unit_price_of_positive amount Hp).
    apply (num_div_defined amount Hp). tauto.
Qed.

Lemma unit_price_of_value (a b : Q) :
  (0 < b)%Q ->
  unit_price_of (Some (Fin a)) (Some (Fin b)) = Some (round (a / b)).
Proof.
  intros H. rewrite unit_price_of_positive by (right; now exists b).
  simpl. now rewrite (Qpos_nonzero H).
Qed.

(** C1 (amended): in every row of the converted table the unit price is
    defined exactly when the amount is defined, the area is defined and
    positive, and the two are not both infinite; it is then the amount
    divided by the area, which for two finite numbers is their quotient
    rounded to a float.  With amount 50000 the area 0 gives no unit price
    and the area 25 gives 2000. *)
Theorem unit_price_defined_iff {P : Parsers} (results : list filtered_row) :
  Forall (fun t =>
    (unit_price t <> None <->
       t_thing_amt t <> None /\ is_positive (t_arch_area t) /\
       ~ (is_infinite (t_thing_amt t) /\ is_infinite (t_arch_area t))) /\
    (unit_price t <> None ->
       unit_price t = num_div (t_thing_amt t) (t_arch_area t)) /\
    (forall a b, t_thing_amt t = Some (Fin a) ->
       t_arch_area t = Some (Fin b) -> (0 < b)%Q ->
       unit_price t = Some (round (a / b))))
    (convert_data results) /\
  map unit_price
    (convert_data (P := reference_parsers)
       [sample_row "A" "20230105" "50000" "0";
        sample_row "B" "20230105" "50000" "25"])
    = [None; Some (Fin 2000)].
Proof.
  split; [|reflexivity].
  rewrite convert_data_map. apply Forall_forall.
  intros t Ht. apply in_map_iff in Ht as [r [<- _]]. simpl. split; [|split].
  - apply unit_price_of_defined.
  - intros H. apply unit_price_of_defined in H as [_ [Hp _]].
    now apply unit_price_of_positive.
  - intros a b -> ->. apply unit_price_of_value.
Qed.

(** C1 as stated fails: an amount and an area that both read as infinity
    are defined, and the area is positive, but their quotient is NaN: the
    row has no unit price. *)
Lemma unit_price_absent_on_infinities :
  let t := convert_row (P := reference_parsers)
             (sample_row "A" "20230105" "inf" "inf") in
  t_thing_amt t = Some PosInf /\ t_arch_area t = Some PosInf /\
  is_positive (t_arch_area t) /\ unit_price t = None /\
  ~ (unit_price t <> None <->
     t_thing_amt t <> None /\ is_positive (t_arch_area t)).
Proof.
  cbv zeta. repeat split; try reflexivity.
  - now left.
  - intros [_ H]. apply H; [|reflexivity]. split; [discriminate | now left].
Qed.

(** C10: the conversion keeps the number of rows and, row by row, the six
    text fields; the contract day, the amount and the area are what the
    parsers make of the texts, and the unit price is the added field. *)
Theorem convert_data_frame {P : Parsers} (results : list filtered_row) :
  List.length (convert_data results) = List.length results /\
  Forall2 (fun r t =>
    t_rcpt_yr t = rcpt_yr r /\ t_cgg_nm t = cgg_nm r /\
    t_stdg_nm t = stdg_nm r /\ t_mno t = mno r /\ t_sno t = sno r /\
    t_bldg_nm t = bldg_nm r /\
    t_ctrt_day t = to_datetime (ctrt_day r) /\
    t_thing_amt t = to_numeric (thing_amt r) /\
    t_arch_area t = to_numeric (arch_area r) /\
    unit_price t = unit_price_of (t_thing_amt t) (t_arch_area t))
    results (convert_data results).
Proof.
  rewrite convert_data_map. split; [apply length_map|].
  apply Forall2_map_self. intros r. simpl. repeat split.
Qed.

(** C4: the conversion is total and keeps every row; a contract day on
    which the date parser raises becomes NaT, an amount or an area on which
    the number parser raises becomes NaN.  Under the reference parsers the
    day 20230230 is no date and the row stays. *)
Theorem convert_data_coerces {P : Parsers} (results : list filtered_row) :
  List.length (convert_data results) = List.length results /\
  Forall2 (fun r t =>
    (forall s e, ctrt_day r = Some s -> strptime_Ymd s = Raise e ->
       t_ctrt_day t = None) /\
    (forall s e, thing_amt r = Some s -> str_to_number s = Raise e ->
       t_thing_amt t = None) /\
    (forall s e, arch_area r = Some s -> str_to_number s = Raise e ->
       t_arch_area t = None))
    results (convert_data results) /\
  reference_strptime "20230230" = Raise ValueError /\
  reference_strptime "20230228" =
    Ok {| year := 2023; month := 2; day := 28 |} /\
  map (fun t => (t_bldg_nm t, t_ctrt_day t, t_thing_amt t, t_arch_area t))
    (convert_data (P := reference_parsers)
       [sample_row "A" "20230230" "5억" "84.9㎡"])
    = [(Some "A", None, None, None)].
Proof.
  rewrite convert_data_map.
  split; [apply length_map|]. split; [|repeat split; reflexivity].
  apply Forall2_map_self. intros r. simpl. repeat split.
  - intros s e -> H. simpl. now rewrite H.
  - intros s e -> H. simpl. now rewrite H.
  - intros s e -> H. simpl. now rewrite H.
Qed.

(** ** Addresses *)

Lemma length_append (a b : string) :
  String.length (a ++ b) = (String.length a + String.length b)%nat.
Proof. induction a; simpl; congruence. Qed.

Lemma append_dash_neq (a s : string) : a ++ "-" ++ s <> a.
Proof.
  intros H. apply (f_equal String.length) in H.
  rewrite length_append in H. simpl in H. lia.
Qed.

Lemma no_sub_lot_spec (v : option string) :
  no_sub_lot v = true <->
  v = None \/ v = Some EmptyString \/ v = Some "0000".
Proof.
  unfold no_sub_lot. destruct v as [s|]; cbn [existsb option_string_eqb].
  - rewrite !orb_false_r, orb_true_iff, !String.eqb_eq. split.
    + intros [-> | ->]; auto.
    + intros [H | [[= ->] | [= ->]]]; [discriminate | auto | auto].
  - split; auto.
Qed.

(** C7: for a row whose main lot number is a non-empty string, the address
    is city, district, sub-district and main lot separated by spaces when
    the sub lot is [None], the empty string or "0000", and the same with a
    dash and the sub lot appended for every other sub lot; the address is
    the short one for these three values only. *)
Theorem address_of_rule (t : transaction) (m : string) :
  t_mno t = Some m -> m <> EmptyString ->
  let base :=
    "서울특별시 " ++ py_str (t_cgg_nm t) ++ " " ++ py_str (t_stdg_nm t) ++ " " ++ m in
  (t_sno t = None \/ t_sno t = Some EmptyString \/ t_sno t = Some "0000" ->
   address_of t = Some base) /\
  (forall s, t_sno t = Some s -> s <> EmptyString -> s <> "0000" ->
   address_of t = Some (base ++ "-" ++ s)) /\
  (address_of t = Some base <->
   t_sno t = None \/ t_sno t = Some EmptyString \/ t_sno t = Some "0000").
Proof.
  intros Hm Hne base.
  assert (Hb : address_base t = base) by (unfold address_base; now rewrite Hm).
  unfold address_of. rewrite Hm, (truthy_Some Hne), Hb.
  split; [|split].
  - intros H. now rewrite (proj2 (no_sub_lot_spec _) H).
  - intros s Hs H1 H2.
    destruct (no_sub_lot (t_sno t)) eqn:E.
    + apply no_sub_lot_spec in E. rewrite Hs in E.
      destruct E as [E | [E | E]]; congruence.
    + now rewrite Hs.
  - destruct (no_sub_lot (t_sno t)) eqn:E.
    + apply no_sub_lot_spec in E. tauto.
    + split.
      * intros [= H]. now apply append_dash_neq in H.
      * intros H. apply no_sub_lot_spec in H. congruence.
Qed.

Lemma address_of_rule_witness :
  let t := convert_row (P := reference_parsers)
             (sample_row "A" "20230105" "50000" "25") in
  address_of t = Some "서울특별시 강서구 화곡동 0012-0003".
Proof.
  intros t.
  exact (proj1 (proj2 (@address_of_rule t "0012" eq_refl
                         ltac:(discriminate)))
           "0003" eq_refl ltac:(discriminate) ltac:(discriminate)).
Defined.

(** ** Summary KPIs *)

Lemma kpi_mean_empty {S : Summation} : kpi_mean [] = Some (Fin 0).
Proof. reflexivity. Qed.

Lemma dropna_values_all_nan {A : Type} (col : list (option A)) :
  Forall (fun v => v = None) col -> dropna_values col = [].
Proof. induction 1 as [|v col -> _ IH]; simpl; auto. Qed.

(** A column with rows and no value has the mean NaN. *)
Lemma kpi_mean_all_nan {S : Summation} (col : list (option number)) :
  col <> [] -> Forall (fun v => v = None) col -> kpi_mean col = None.
Proof.
  intros Hne Hall. unfold kpi_mean, series_mean.
  rewrite (dropna_values_all_nan Hall).
  destruct col; [congruence | reflexivity].
Qed.

(** C9 (the code departs from the claim): the count and the two means are
    taken over the current table, and a table without rows gives the means
    0; but a table with a row and no defined amount (or unit price) gives
    the mean NaN, where the claim has zero. *)
Theorem summary_kpis_nan_on_absent_values {S : Summation} :
  let df := convert_data (P := reference_parsers)
              [sample_row "A" "20230105" "" "0"] in
  map t_thing_amt df = [None] /\
  map unit_price df = [None] /\
  summary_kpis (current_table df
                  [ {| year := 2023; month := 1; day := 1 |};
                    {| year := 2023; month := 1; day := 31 |} ])
    = {| total_count := 1; avg_price := None; avg_unit_price := None |} /\
  summary_kpis (current_table df
                  [ {| year := 2023; month := 2; day := 1 |};
                    {| year := 2023; month := 2; day := 28 |} ])
    = {| total_count := 0; avg_price := Some (Fin 0);
         avg_unit_price := Some (Fin 0) |}.
Proof. repeat split; reflexivity. Qed.

(** ** Top transactions *)

Section NLargestFacts.

Variable A : Type.
Variable key : A -> option number.

Lemma insert_desc_perm (x : A) (l : list A) :
  Permutation (x :: l) (insert_desc key x l).
Proof.
  induction l as [|y l IH]; simpl; [reflexivity|].
  destruct (key_gtb key y x); [|reflexivity].
  rewrite perm_swap. now constructor.
Qed.

Lemma sort_desc_perm (l : list A) : Permutation l (sort_desc key l).
Proof.
  induction l as [|x l IH]; simpl; [reflexivity|].
  rewrite <- insert_desc_perm. now constructor.
Qed.

Lemma key_gtb_true (y x : A) :
  key_gtb key y x = true ->
  exists a b, key y = Some b /\ key x = Some a /\ num_leb b a = false.
Proof.
  unfold key_gtb. destruct (key y) as [b|], (key x) as [a|]; try discriminate.
  rewrite negb_true_iff. intros H. now exists a, b.
Qed.

Lemma key_gtb_false (y x : A) (a b : number) :
  key y = Some b -> key x = Some a -> key_gtb key y x = false ->
  num_leb b a = true.
Proof.
  unfold key_gtb. intros -> ->. now rewrite negb_false_iff.
Qed.

Lemma key_ge_trans (x y z : A) : key_ge key x y -> key_ge key y z -> key_ge key x z.
Proof.
  intros [a [b [Ha [Hb Hab]]]] [b' [c [Hb' [Hc Hbc]]]].
  rewrite Hb in Hb'. injection Hb' as <-.
  exists a, c. repeat split; auto. now apply num_leb_trans with b.
Qed.

Lemma insert_desc_sorted (x : A) (l : list A) :
  key x <> None -> Forall (fun y => key y <> None) l ->
  StronglySorted (key_ge key) l ->
  StronglySorted (key_ge key) (insert_desc key x l).
Proof.
  intros Hx Hl Hs. induction Hs as [|y l Hs IH Hy]; simpl.
  - repeat constructor.
  - inversion Hl as [|? ? Hy' Hl']; subst.
    destruct (key_gtb key y x) eqn:E.
    + constructor; [now apply IH|].
      apply Forall_forall. intros z Hz.
      apply (Permutation_in _ (Permutation_sym (insert_desc_perm x l))) in Hz.
      destruct Hz as [<- | Hz].
      * apply key_gtb_true in E as [a [b [Hb [Ha Hlt]]]].
        exists b, a. repeat split; auto. now apply num_leb_total.
      * rewrite Forall_forall in Hy. now apply Hy.
    + assert (Hxy : key_ge key x y).
      { destruct (key x) as [a|] eqn:Ha; [|congruence].
        destruct (key y) as [b|] eqn:Hb; [|congruence].
        exists a, b. repeat split; auto.
        apply (key_gtb_false Hb Ha E). }
      constructor; [now constructor|].
      constructor; [exact Hxy|].
      eapply Forall_impl; [|exact Hy].
      intros z Hz. now apply key_ge_trans with y.
Qed.

Lemma sort_desc_sorted (l : list A) :
  Forall (fun y => key y <> None) l ->
  StronglySorted (key_ge key) (sort_desc key l).
Proof.
  induction 1 as [|x l Hx Hl IH]; simpl; [constructor|].
  apply insert_desc_sorted; auto.
  apply Forall_forall. intros y Hy.
  apply (Permutation_in _ (Permutation_sym (sort_desc_perm l))) in Hy.
  rewrite Forall_forall in Hl. now apply Hl.
Qed.

(** Stability: among the rows whose key equals [v], sorting changes
    nothing. *)
Lemma insert_desc_stable (v : number) (x : A) (l : list A) :
  filter (key_is key v) (insert_desc key x l) = filter (key_is key v) (x :: l).
Proof.
  induction l as [|y l IH]; [reflexivity|].
  cbn [insert_desc]. destruct (key_gtb key y x) eqn:E; [|reflexivity].
  cbn [filter] in *. rewrite IH.
  destruct (key_is key v y) eqn:Hy, (key_is key v x) eqn:Hx; try reflexivity.
  exfalso. apply key_gtb_true in E as [a [b [Hb [Ha Hlt]]]].
  unfold key_is in Hy, Hx. rewrite Hb in Hy. rewrite Ha in Hx.
  unfold num_eqb in Hy, Hx.
  apply andb_true_iff in Hy as [Hy _]. apply andb_true_iff in Hx as [_ Hx].
  rewrite (num_leb_trans _ _ _ Hy Hx) in Hlt. discriminate.
Qed.

Lemma sort_desc_stable (v : number) (l : list A) :
  filter (key_is key v) (sort_desc key l) = filter (key_is key v) l.
Proof.
  induction l as [|x l IH]; [reflexivity|].
  cbn [sort_desc fold_right]. fold (sort_desc key l).
  rewrite insert_desc_stable. cbn [filter]. now rewrite IH.
Qed.

End NLargestFacts.

Lemma filter_firstn {A : Type} (p : A -> bool) (n : nat) (l : list A) :
  exists k, filter p (firstn n l) = firstn k (filter p l).
Proof.
  revert n; induction l as [|x l IH]; intros [|n]; simpl;
    try (now exists 0%nat).
  destruct (IH n) as [k Hk]. destruct (p x).
  - exists (S k); simpl. now rewrite Hk.
  - now exists k.
Qed.

Lemma StronglySorted_app_le {A : Type} (R : A -> A -> Prop) (l1 l2 : list A) :
  StronglySorted R (l1 ++ l2)%list ->
  StronglySorted R l1 /\ Forall (fun x => Forall (R x) l2) l1.
Proof.
  induction l1 as [|x l1 IH]; simpl; intros H.
  - split; constructor.
  - inversion H as [|? ? Hs Hx]; subst.
    destruct (IH Hs) as [H1 H2].
    apply Forall_app in Hx as [Hx1 Hx2].
    split; constructor; auto.
Qed.

Lemma filter_filter_sub {A : Type} (p q : A -> bool) (l : list A) :
  (forall x, p x = true -> q x = true) ->
  filter p (filter q l) = filter p l.
Proof.
  intros H; induction l as [|x l IH]; simpl; [reflexivity|].
  destruct (q x) eqn:Hq; simpl; rewrite IH; [reflexivity|].
  destruct (p x) eqn:Hp; [|reflexivity].
  apply H in Hp. congruence.
Qed.

(** C5: the top five are taken among the rows with a defined amount; they
    come by decreasing amount, every row left out has at most the amount of
    every row taken, and rows of equal amount come in their original order.
    On the amounts 100, 900, 500, 900, 300 the result starts with the two
    rows of 900 in their original order, then the row of 500. *)
Theorem top5_spec (df : table) :
  let defined := filter (fun t => notnull (t_thing_amt t)) df in
  List.length (top5 df) = Nat.min 5 (List.length defined) /\
  (exists rest,
     Permutation (top5 df ++ rest)%list defined /\
     Forall (fun t => Forall (key_ge t_thing_amt t) rest) (top5 df)) /\
  StronglySorted (key_ge t_thing_amt) (top5 df) /\
  (forall v, exists k,
     filter (key_is t_thing_amt v) (top5 df) =
     firstn k (filter (key_is t_thing_amt v) df)) /\
  map (fun t => (t_bldg_nm t, t_thing_amt t))
    (top5 (convert_data (P := reference_parsers)
       [sample_row "A" "20230105" "100" "25";
        sample_row "B" "20230106" "900" "25";
        sample_row "C" "20230107" "500" "25";
        sample_row "D" "20230108" "900" "25";
        sample_row "E" "20230109" "300" "25"]))
    = [(Some "B", Some (Fin 900)); (Some "D", Some (Fin 900));
       (Some "C", Some (Fin 500)); (Some "E", Some (Fin 300));
       (Some "A", Some (Fin 100))].
Proof.
  intros defined. unfold top5, nlargest. fold defined.
  assert (Hdef : Forall (fun t => t_thing_amt t <> None) defined).
  { apply Forall_forall. intros t Ht. apply filter_In in Ht as [_ Ht].
    destruct (t_thing_amt t); [discriminate | discriminate Ht]. }
  pose proof (@sort_desc_sorted _ t_thing_amt _ Hdef) as Hs.
  rewrite <- (firstn_skipn 5 (sort_desc t_thing_amt defined)) in Hs.
  apply StronglySorted_app_le in Hs as [Hs1 Hs2].
  split; [|split; [|split; [|split]]].
  - rewrite length_firstn.
    now rewrite <- (Permutation_length (sort_desc_perm t_thing_amt defined)).
  - exists (skipn 5 (sort_desc t_thing_amt defined)). split; [|exact Hs2].
    rewrite firstn_skipn. symmetry. apply sort_desc_perm.
  - exact Hs1.
  - intros v.
    destruct (filter_firstn (key_is t_thing_amt v) 5
                (sort_desc t_thing_amt defined)) as [k Hk].
    exists k. rewrite Hk, sort_desc_stable. unfold defined.
    rewrite filter_filter_sub; [reflexivity|].
    intros t. unfold key_is. now destruct (t_thing_amt t).
  - reflexivity.
Qed.

(** ** Monthly mean unit price *)

Lemma date_leb_iff (a b : date) :
  date_leb a b = true <->
  year a < year b \/
  (year a = year b /\
   (month a < month b \/ (month a = month b /\ day a <= day b))).
Proof.
  unfold date_leb.
  now rewrite !orb_true_iff, !andb_true_iff, !orb_true_iff, !andb_true_iff,
    !Z.ltb_lt, !Z.eqb_eq, Z.leb_le.
Qed.

Lemma date_eqb_iff (a b : date) :
  date_eqb a b = true <->
  year a = year b /\ month a = month b /\ day a = day b.
Proof.
  unfold date_eqb. rewrite !andb_true_iff, !Z.eqb_eq. tauto.
Qed.

Lemma date_ltb_iff (a b : date) :
  date_ltb a b = true <-> date_leb a b = true /\ date_eqb a b <> true.
Proof.
  unfold date_ltb. rewrite andb_true_iff, negb_true_iff, not_true_iff_false.
  reflexivity.
Qed.

Ltac date_order :=
  rewrite ?date_ltb_iff, ?date_leb_iff, ?date_eqb_iff in *;
  repeat match goal with d : date |- _ => destruct d end;
  cbn [year month day] in *; lia.

Lemma date_eqb_eq (a b : date) : date_eqb a b = true <-> a = b.
Proof.
  rewrite date_eqb_iff. split.
  - destruct a, b; simpl. intros [-> [-> ->]]. reflexivity.
  - intros ->. auto.
Qed.

Lemma date_leb_total (a b : date) : date_leb a b = false -> date_ltb b a = true.
Proof.
  rewrite <- not_true_iff_false. date_order.
Qed.

Lemma date_ltb_trans (a b c : date) :
  date_ltb a b = true -> date_ltb b c = true -> date_ltb a c = true.
Proof. date_order. Qed.

Lemma insert_key_In (x k : date) (ks : list date) :
  In x (insert_key k ks) <-> x = k \/ In x ks.
Proof.
  induction ks as [|k' ks IH]; simpl; [intuition|].
  destruct (date_eqb k k') eqn:E.
  - apply date_eqb_eq in E as ->. simpl. intuition.
  - destruct (date_leb k k'); simpl; [intuition|].
    rewrite IH. intuition.
Qed.

Lemma insert_key_sorted (k : date) (ks : list date) :
  StronglySorted (fun a b => date_ltb a b = true) ks ->
  StronglySorted (fun a b => date_ltb a b = true) (insert_key k ks).
Proof.
  induction 1 as [|k' ks Hs IH Hk']; simpl.
  - repeat constructor.
  - destruct (date_eqb k k') eqn:E; [now constructor|].
    destruct (date_leb k k') eqn:L.
    + assert (Hlt : date_ltb k k' = true)
        by (unfold date_ltb; now rewrite L, E).
      constructor; [now constructor|].
      constructor; [exact Hlt|].
      eapply Forall_impl; [|exact Hk'].
      intros z Hz. now apply date_ltb_trans with k'.
    + constructor; [exact IH|].
      apply Forall_forall. intros z Hz.
      apply insert_key_In in Hz as [-> | Hz].
      * now apply date_leb_total.
      * rewrite Forall_forall in Hk'. now apply Hk'.
Qed.

Lemma group_keys_In (x : date) (col : list date) :
  In x (group_keys col) <-> In x col.
Proof.
  induction col as [|k col IH]; simpl; [reflexivity|].
  rewrite insert_key_In, IH. intuition.
Qed.

Lemma group_keys_sorted (col : list date) :
  StronglySorted (fun a b => date_ltb a b = true) (group_keys col).
Proof.
  induction col as [|k col IH]; simpl; [constructor|].
  now apply insert_key_sorted.
Qed.

Lemma dropna_values_In {A : Type} (x : A) (col : list (option A)) :
  In x (dropna_values col) <-> In (Some x) col.
Proof.
  induction col as [|[v|] col IH]; simpl; [reflexivity| |].
  - rewrite IH. split; intros [H|H]; auto; left; congruence.
  - rewrite IH. split; [auto | intros [H|H]; [discriminate | auto]].
Qed.

Lemma monthly_mean_keys {S : Summation} (df : table) :
  map fst (monthly_mean df) =
  group_keys (dropna_values (map year_month (df_time df))).
Proof. unfold monthly_mean. rewrite map_map. simpl. apply map_id. Qed.

Lemma monthly_keys_In (k : date) (df : table) :
  In k (group_keys (dropna_values (map year_month (df_time df)))) <->
  exists t d, In t df /\ t_ctrt_day t = Some d /\ unit_price t <> None /\
              k = {| year := year d; month := month d; day := 1 |}.
Proof.
  rewrite group_keys_In, dropna_values_In, in_map_iff. unfold df_time. split.
  - intros [t [Hk Ht]]. apply filter_In in Ht as [Ht Hb].
    unfold year_month in Hk.
    destruct (t_ctrt_day t) as [d|] eqn:Hd; [|discriminate].
    injection Hk as Hk. exists t, d. repeat split; auto.
    destruct (unit_price t); [discriminate | discriminate Hb].
  - intros [t [d [Ht [Hd [Hu ->]]]]]. exists t. split.
    + unfold year_month. now rewrite Hd.
    + apply filter_In. split; [exact Ht|]. rewrite Hd.
      now destruct (unit_price t).
Qed.





(** * Further properties of the code *)

(** ** Filter and fetcher *)

Lemma keep_row_true district dong cgg stdg :
  keep_row district dong cgg stdg = Ok true <->
  exists c, cgg = Some c /\ str_contains district c = true /\
    (truthy dong = false \/
     exists g, stdg = Some g /\ str_contains (py_str dong) g = true).
Proof.
  unfold keep_row. destruct cgg as [c|]; simpl.
  - destruct (str_contains district c) eqn:Hc; simpl.
    + destruct (truthy dong) eqn:Hd; simpl.
      * destruct stdg as [g|]; simpl.
        -- split.
           ++ intros [= Hg]. exists c. repeat split; auto. right. now exists g.
           ++ intros [c' [[= <-] [_ [H | [g' [[= <-] Hg]]]]]];
                [discriminate | now rewrite Hg].
        -- split; [discriminate|].
           intros [c' [_ [_ [H | [g' [H _]]]]]]; discriminate.
      * split; [|reflexivity]. intros _. exists c. auto.
    + split; [discriminate|].
      intros [c' [[= <-] [H _]]]. congruence.
  - split; [discriminate|]. intros [c' [H _]]. discriminate.
Qed.

Lemma keep_row_raises district dong cgg stdg e :
  keep_row district dong cgg stdg = Raise e <->
  e = TypeError /\
  (cgg = None \/
   exists c, cgg = Some c /\ str_contains district c = true /\
             truthy dong = true /\ stdg = None).
Proof.
  unfold keep_row. destruct cgg as [c|]; simpl.
  - destruct (str_contains district c) eqn:Hc; simpl.
    + destruct (truthy dong) eqn:Hd; simpl.
      * destruct stdg as [g|]; simpl.
        -- split; [discriminate|].
           intros [_ [H | [c' [_ [_ [_ H]]]]]]; discriminate.
        -- split.
           ++ intros [= <-]. split; [reflexivity|]. right. now exists c.
           ++ intros [-> _]. reflexivity.
      * split; [discriminate|].
        intros [_ [H | [c' [_ [_ [H _]]]]]]; discriminate.
    + split; [discriminate|].
      intros [_ [H | [c' [[= <-] [H _]]]]]; [discriminate | congruence].
  - split.
    + intros [= <-]. auto.
    + intros [-> _]. reflexivity.
Qed.

(** X1: every dictionary the filter returns has a district text in which
    the required district occurs, and, when a sub-district is asked for, a
    sub-district text in which it occurs. *)
Theorem filter_rows_output_matches district dong rows out :
  filter_rows district dong rows = Ok out ->
  Forall (fun d =>
    (exists c a b, cgg_nm d = Some c /\ c = a ++ district ++ b) /\
    (truthy dong = true ->
     exists g a b, stdg_nm d = Some g /\ g = a ++ py_str dong ++ b)) out.
Proof.
  intros H. apply filter_rows_kept in H.
  eapply Forall_impl; [|exact H]. intros d Hd.
  apply keep_row_true in Hd as [c [Hc [Hin Hg]]]. split.
  - apply str_contains_spec in Hin as [a [b Hab]]. now exists c, a, b.
  - intros Ht. destruct Hg as [Hf | [g [Hg Hin']]]; [congruence|].
    apply str_contains_spec in Hin' as [a [b Hab]]. now exists g, a, b.
Qed.

Lemma filter_rows_output_matches_witness :
  Forall (fun d =>
    (exists c a b, cgg_nm d = Some c /\ c = a ++ "강서" ++ b) /\
    (truthy (Some "화곡") = true ->
     exists g a b, stdg_nm d = Some g /\ g = a ++ py_str (Some "화곡") ++ b))
    [data_of_row
       (Element "row" None
          [Element "CGG_NM" (Some "강서구") [];
           Element "STDG_NM" (Some "화곡동") []])].
Proof.
  exact (@filter_rows_output_matches "강서" (Some "화곡")
           [Element "row" None
              [Element "CGG_NM" (Some "강서구") [];
               Element "STDG_NM" (Some "화곡동") []];
            Element "row" None
              [Element "CGG_NM" (Some "강남구") [];
               Element "STDG_NM" (Some "역삼동") []]]
           _ eq_refl).
Defined.

(** X2: on rows whose district and sub-district elements carry text or
    are missing, the filter does not raise and returns, in order, the
    dictionaries of exactly the rows whose district text contains the
    district and, when a sub-district is asked for, whose sub-district text
    contains it. *)
Theorem filter_rows_on_text_rows district dong rows :
  Forall has_text rows ->
  filter_rows district dong rows =
    Ok (map data_of_row (filter (retained district dong) rows)) /\
  (forall row,
     retained district dong row = true <->
     (exists a b, py_str (field_text row "CGG_NM") = a ++ district ++ b) /\
     (truthy dong = false \/
      exists a b, py_str (field_text row "STDG_NM") = a ++ py_str dong ++ b)).
Proof.
  intros H. split; [now apply filter_rows_text|].
  intros row. unfold retained.
  rewrite andb_true_iff, orb_true_iff, negb_true_iff, !str_contains_spec.
  reflexivity.
Qed.

Lemma filter_rows_on_text_rows_witness :
  filter_rows "강서구" (Some EmptyString)
    [ Element "row" None [Element "CGG_NM" (Some "서울 강서구") []];
      Element "row" None [Element "STDG_NM" (Some "화곡동") []] ]
  = Ok [ data_of_row
           (Element "row" None [Element "CGG_NM" (Some "서울 강서구") []]) ].
Proof.
  refine (proj1 (@filter_rows_on_text_rows "강서구" (Some EmptyString) _ _)).
  repeat constructor; discriminate.
Defined.

Lemma filter_rows_raise_char district dong rows :
  forall e,
    filter_rows district dong rows = Raise e <->
    e = TypeError /\ Exists (breaks_filter district dong) rows.
Proof.
  induction rows as [|row rows IH]; intros e; simpl.
  - split; [discriminate|]. intros [_ H]. inversion H.
  - destruct (keep_row district dong (field_text row "CGG_NM")
                (field_text row "STDG_NM")) as [b|e'] eqn:Hk; simpl.
    + assert (Hnb : ~ breaks_filter district dong row).
      { intros Hb.
        assert (Hr : keep_row district dong (field_text row "CGG_NM")
                       (field_text row "STDG_NM") = Raise TypeError)
          by (apply keep_row_raises; split; [reflexivity | exact Hb]).
        congruence. }
      destruct (filter_rows district dong rows) as [out|e''] eqn:Hf; simpl.
      * split; [discriminate|]. intros [-> Hex].
        inversion Hex; subst; [contradiction|].
        assert (X : Ok out = Raise TypeError :> exc (list filtered_row))
          by (apply IH; now split).
        discriminate X.
      * split.
        -- intros [= ->]. destruct (proj1 (IH e) eq_refl) as [-> Hex].
           split; [reflexivity | now apply Exists_cons_tl].
        -- intros [-> _]. now destruct (proj1 (IH e'') eq_refl) as [-> _].
    + apply keep_row_raises in Hk as [-> Hb]. split.
      * intros [= <-]. split; [reflexivity | now apply Exists_cons_hd].
      * intros [-> _]. reflexivity.
Qed.

(** X3: the filter raises nothing but [TypeError], and it raises exactly
    when some row breaks line 49: its district element has no text, or it
    matches the district while a sub-district is asked for and its
    sub-district element has no text. *)
Theorem filter_rows_raises_iff district dong rows :
  (forall e, filter_rows district dong rows = Raise e -> e = TypeError) /\
  (filter_rows district dong rows = Raise TypeError <->
   Exists (breaks_filter district dong) rows).
Proof.
  split.
  - intros e He. now apply filter_rows_raise_char in He.
  - rewrite filter_rows_raise_char. tauto.
Qed.

(** X4: a call of [query_real_estate] either shows the one error "API
    call failed" and returns the empty list, or shows nothing; an exception
    that leaves it is the one [ET.fromstring] raised on the body, or the
    [TypeError] of the filter: a failure of the request never leaves it. *)
Theorem query_real_estate_outcomes get api_key district dong start end_ :
  let res := query_real_estate get api_key district dong start end_ in
  ((exists e, res = ([StError "API 호출 실패" e], Ok [])) \/ fst res = []) /\
  (forall e, snd res = Raise e ->
     e = TypeError \/
     exists r, get (base_url api_key start end_) = GetReturns r /\
               fromstring (content r) = Raise e).
Proof.
  unfold query_real_estate.
  destruct (get (base_url api_key start end_)) as [e0|r]; simpl.
  - split; [left; now eexists | discriminate].
  - destruct (raise_for_status r) as [[]|e1]; simpl.
    + split; [now right|]. intros e.
      destruct (fromstring (content r)) as [root|e'] eqn:Hf; simpl.
      * intros H. apply filter_rows_raise_char in H as [-> _]. now left.
      * intros [= <-]. right. now exists r.
    + split; [left; now eexists | discriminate].
Qed.

Lemma keep_row_without_dong district dong cgg stdg b :
  keep_row district dong cgg stdg = Ok b ->
  exists b',
    keep_row district None cgg stdg = Ok b' /\
    b = b' && (negb (truthy dong) || str_contains (py_str dong) (py_str stdg)).
Proof.
  unfold keep_row. destruct cgg as [c|]; simpl; [|discriminate].
  destruct (str_contains district c); simpl.
  - destruct (truthy dong); simpl.
    + destruct stdg as [g|]; simpl; [|discriminate].
      intros [= <-]. now exists true.
    + intros [= <-]. now exists true.
  - intros [= <-]. now exists false.
Qed.

(** X5: asking for a sub-district only narrows the result: when the
    filter with a sub-district returns a list, the filter without one
    returns a list too, and the first is the second restricted, in order,
    to the dictionaries whose sub-district text contains the
    sub-district. *)
Theorem filter_rows_dong_narrows district dong rows out :
  filter_rows district dong rows = Ok out ->
  exists out',
    filter_rows district None rows = Ok out' /\
    out = filter (dong_matches dong) out'.
Proof.
  revert out; induction rows as [|row rows IH]; intros out; simpl.
  - intros [= <-]. now exists [].
  - destruct (keep_row district dong (field_text row "CGG_NM")
                (field_text row "STDG_NM")) as [b|] eqn:Hk; simpl;
      [|discriminate].
    destruct (filter_rows district dong rows) as [o|] eqn:Hf; simpl;
      [|discriminate].
    intros [= <-].
    apply keep_row_without_dong in Hk as [b' [Hk' ->]]. rewrite Hk'.
    destruct (IH o eq_refl) as [o' [-> ->]]; simpl.
    eexists. split; [reflexivity|].
    destruct b'; simpl; [|reflexivity].
    change (dong_matches dong (data_of_row row))
      with (negb (truthy dong) ||
            str_contains (py_str dong) (py_str (field_text row "STDG_NM"))).
    destruct (negb (truthy dong) ||
              str_contains (py_str dong) (py_str (field_text row "STDG_NM")));
      reflexivity.
Qed.

Lemma filter_rows_dong_narrows_witness :
  exists out',
    filter_rows "강서구" None
      [ Element "row" None
          [Element "CGG_NM" (Some "강서구") []; Element "STDG_NM" (Some "화곡동") []];
        Element "row" None
          [Element "CGG_NM" (Some "강서구") []; Element "STDG_NM" (Some "등촌동") []] ]
      = Ok out' /\
    [data_of_row
       (Element "row" None
          [Element "CGG_NM" (Some "강서구") []; Element "STDG_NM" (Some "등촌동") []])]
    = filter (dong_matches (Some "등촌")) out'.
Proof.
  exact (@filter_rows_dong_narrows "강서구" (Some "등촌")
           [ Element "row" None
               [Element "CGG_NM" (Some "강서구") [];
                Element "STDG_NM" (Some "화곡동") []];
             Element "row" None
               [Element "CGG_NM" (Some "강서구") [];
                Element "STDG_NM" (Some "등촌동") []] ]
           _ eq_refl).
Defined.

(** ** Date range *)






Lemma existsb_notnull_dated (df : table) :
  existsb (fun t => notnull (t_ctrt_day t)) df = true <->
  dropna_values (map t_ctrt_day df) <> [].
Proof.
  induction df as [|t df IH]; simpl.
  - split; [discriminate | congruence].
  - destruct (t_ctrt_day t); simpl; [|exact IH].
    split; [discriminate | reflexivity].
Qed.

Lemma current_table_filter (df : table) (lo hi : date) :
  dropna_values (map t_ctrt_day df) <> [] ->
  current_table df [lo; hi] = filter (in_date_range lo hi) df.
Proof.
  intros H. unfold current_table.
  rewrite (proj2 (existsb_notnull_dated df) H).
  destruct df; [now elim H | reflexivity].
Qed.

Lemma current_table_no_date (df : table) (date_range : list date) :
  dropna_values (map t_ctrt_day df) = [] ->
  current_table df date_range = df.
Proof.
  intros H. unfold current_table.
  destruct (existsb (fun t => notnull (t_ctrt_day t)) df) eqn:E.
  - apply existsb_notnull_dated in E. congruence.
  - now rewrite andb_false_r.
Qed.

Lemma filter_all {A : Type} (l : list A) : filter (fun _ => true) l = l.
Proof. induction l; simpl; congruence. Qed.

(** X7: the date filter only removes rows, keeping the order; when the
    table has a contract date and the widget returns two dates, every row
    that stays is dated within them, both ends included; when no row has a
    contract date the table is left as it is. *)
Theorem current_table_rows (df : table) (date_range : list date) :
  (exists keep, current_table df date_range = filter keep df) /\
  (forall lo hi, date_range = [lo; hi] ->
     dropna_values (map t_ctrt_day df) <> [] ->
     Forall (fun t => exists d, t_ctrt_day t = Some d /\
                        date_leb lo d = true /\ date_leb d hi = true)
       (current_table df date_range)) /\
  (dropna_values (map t_ctrt_day df) = [] ->
   current_table df date_range = df).
Proof.
  split; [|split].
  - unfold current_table.
    destruct (_ && _).
    + destruct date_range as [|lo [|hi [|x r]]];
        try (exists (fun _ => true); now rewrite filter_all).
      now exists (in_date_range lo hi).
    + exists (fun _ => true). now rewrite filter_all.
  - intros lo hi -> H. rewrite (@current_table_filter df lo hi H).
    apply Forall_forall. intros t Ht. apply filter_In in Ht as [_ Ht].
    unfold in_date_range in Ht.
    destruct (t_ctrt_day t) as [d|]; [|discriminate].
    apply andb_true_iff in Ht. now exists d.
  - apply current_table_no_date.
Qed.



(** ** Monthly aggregate *)

Lemma date_ltb_irrefl (a : date) : date_ltb a a = true -> False.
Proof. date_order. Qed.

Lemma date_ltb_asym (a b : date) :
  date_ltb a b = true -> date_ltb b a = true -> False.
Proof. date_order. Qed.

Lemma sorted_same_elements (l1 l2 : list date) :
  StronglySorted (fun a b => date_ltb a b = true) l1 ->
  StronglySorted (fun a b => date_ltb a b = true) l2 ->
  (forall x, In x l1 <-> In x l2) ->
  l1 = l2.
Proof.
  intros H1; revert l2.
  induction H1 as [|a t1 Hs1 IH Ha]; intros l2 H2 Hin.
  - destruct l2 as [|b t2]; [reflexivity|].
    destruct (proj2 (Hin b) (or_introl eq_refl)).
  - destruct H2 as [|b t2 Hs2 Hb].
    + destruct (proj1 (Hin a) (or_introl eq_refl)).
    + rewrite Forall_forall in Ha, Hb.
      assert (Hab : a = b).
      { destruct (proj1 (Hin a) (or_introl eq_refl)) as [E | Hat2]; [auto|].
        destruct (proj2 (Hin b) (or_introl eq_refl)) as [E | Hbt1]; [auto|].
        exfalso. exact (date_ltb_asym a b (Ha b Hbt1) (Hb a Hat2)). }
      subst b. f_equal. apply IH; [exact Hs2|].
      intros x. split; intros Hx.
      * destruct (proj1 (Hin x) (or_intror Hx)) as [E | Hx2]; [|exact Hx2].
        subst x. exfalso. exact (date_ltb_irrefl a (Ha a Hx)).
      * destruct (proj2 (Hin x) (or_intror Hx)) as [E | Hx1]; [|exact Hx1].
        subst x. exfalso. exact (date_ltb_irrefl a (Hb a Hx)).
Qed.

(** X11: the trend has no point exactly when no row has both a contract
    date and a unit price (the note "not enough data" is then shown). *)
Theorem monthly_mean_empty_iff {S : Summation} (df : table) :
  monthly_mean df = [] <->
  Forall (fun t => t_ctrt_day t = None \/ unit_price t = None) df.
Proof.
  split.
  - intros H. apply Forall_forall. intros t Ht.
    destruct (t_ctrt_day t) as [d|] eqn:Hd; [|now left].
    destruct (unit_price t) as [u|] eqn:Hu; [|now right].
    exfalso.
    assert (Hk : In {| year := year d; month := month d; day := 1 |}
                    (map fst (monthly_mean df))).
    { rewrite monthly_mean_keys. apply monthly_keys_In.
      exists t, d. repeat split; auto. congruence. }
    now rewrite H in Hk.
  - intros H.
    destruct (monthly_mean df) as [|[k m] l] eqn:E; [reflexivity|].
    exfalso.
    assert (Hk : In k (map fst (monthly_mean df)))
      by (rewrite E; now left).
    rewrite monthly_mean_keys in Hk.
    apply monthly_keys_In in Hk as [t [d [Ht [Hd [Hu _]]]]].
    rewrite Forall_forall in H. destruct (H t Ht); congruence.
Qed.

(** X12: the months of the trend do not depend on the order of the
    rows: two tables with the same rows in any order give the same months
    in the same order. *)
Theorem monthly_mean_order_independent {S : Summation} (df df' : table) :
  Permutation df df' ->
  map fst (monthly_mean df) = map fst (monthly_mean df').
Proof.
  intros Hp. rewrite !monthly_mean_keys.
  apply sorted_same_elements; try apply group_keys_sorted.
  intros k. rewrite !monthly_keys_In.
  split; intros [t [d [Ht H]]]; exists t, d; split; auto.
  - now apply (Permutation_in _ Hp).
  - now apply (Permutation_in _ (Permutation_sym Hp)).
Qed.

Lemma monthly_mean_order_independent_witness :
  let a := convert_row (P := reference_parsers)
             (sample_row "A" "20230105" "50000" "50") in
  let b := convert_row (P := reference_parsers)
             (sample_row "B" "20230220" "50000" "25") in
  map fst (monthly_mean (S := reference_summation) [a; b]) =
  map fst (monthly_mean (S := reference_summation) [b; a]).
Proof.
  intros a b.
  exact (@monthly_mean_order_independent reference_summation [a; b] [b; a]
           (perm_swap b a [])).
Defined.

(** ** Top five *)

Lemma sort_desc_sorted_id {A : Type} (key : A -> option number) (l : list A) :
  StronglySorted (key_ge key) l -> sort_desc key l = l.
Proof.
  induction 1 as [|x l Hs IH Hx]; [reflexivity|].
  cbn [sort_desc fold_right]. fold (sort_desc key l). rewrite IH.
  destruct l as [|y l]; [reflexivity|]. cbn [insert_desc].
  inversion Hx as [|? ? [a [b [Ha [Hb Hle]]]] _]; subst.
  unfold key_gtb. rewrite Ha, Hb.
  now rewrite Hle.
Qed.

Lemma firstn_incl {A : Type} (n : nat) (l : list A) (x : A) :
  In x (firstn n l) -> In x l.
Proof.
  revert l; induction n as [|n IH]; intros l H; [destruct H|].
  destruct l as [|y l]; [destruct H|].
  destruct H as [H|H]; [now left | right; now apply IH].
Qed.

Lemma top5_defined (df : table) :
  Forall (fun t => t_thing_amt t <> None) (top5 df).
Proof.
  apply Forall_forall. intros t Ht. unfold top5, nlargest in Ht.
  apply firstn_incl in Ht.
  apply (Permutation_in _ (Permutation_sym (sort_desc_perm _ _))) in Ht.
  apply filter_In in Ht as [_ Ht].
  destruct (t_thing_amt t); [discriminate | discriminate Ht].
Qed.

Lemma top5_sorted (df : table) : StronglySorted (key_ge t_thing_amt) (top5 df).
Proof.
  unfold top5, nlargest.
  set (defined := filter (fun t => notnull (t_thing_amt t)) df).
  assert (Hdef : Forall (fun t => t_thing_amt t <> None) defined).
  { apply Forall_forall. intros t Ht. apply filter_In in Ht as [_ Ht].
    destruct (t_thing_amt t); [discriminate | discriminate Ht]. }
  pose proof (@sort_desc_sorted _ t_thing_amt _ Hdef) as Hs.
  rewrite <- (firstn_skipn 5 (sort_desc t_thing_amt defined)) in Hs.
  now apply StronglySorted_app_le in Hs.
Qed.

Lemma top5_length (df : table) : (List.length (top5 df) <= 5)%nat.
Proof. unfold top5, nlargest. apply firstn_le_length. Qed.

Lemma filter_id {A : Type} (p : A -> bool) (l : list A) :
  Forall (fun x => p x = true) l -> filter p l = l.
Proof. induction 1 as [|x l Hx _ IH]; simpl; [|rewrite Hx, IH]; reflexivity. Qed.

(** X13: taking the top five of the top five changes nothing. *)
Theorem top5_idempotent (df : table) : top5 (top5 df) = top5 df.
Proof.
  unfold top5 at 1, nlargest.
  rewrite filter_id.
  - rewrite (sort_desc_sorted_id (top5_sorted df)).
    apply firstn_all2, top5_length.
  - eapply Forall_impl; [|apply top5_defined].
    intros t Ht. simpl in Ht. now destruct (t_thing_amt t).
Qed.

Lemma top5_head (df : table) (t : transaction) (a : number) :
  In t df -> t_thing_amt t = Some a ->
  exists h rest b,
    top5 df = h :: rest /\ t_thing_amt h = Some b /\ num_leb a b = true.
Proof.
  intros Ht Ha. unfold top5, nlargest.
  set (defined := filter (fun t => notnull (t_thing_amt t)) df).
  assert (Hdef : Forall (fun t => t_thing_amt t <> None) defined).
  { apply Forall_forall. intros x Hx. apply filter_In in Hx as [_ Hx].
    destruct (t_thing_amt x); [discriminate | discriminate Hx]. }
  assert (Hin : In t (sort_desc t_thing_amt defined)).
  { apply (Permutation_in _ (sort_desc_perm _ _)).
    apply filter_In. split; [exact Ht | now rewrite Ha]. }
  pose proof (@sort_desc_sorted _ t_thing_amt _ Hdef) as Hs.
  destruct (sort_desc t_thing_amt defined) as [|h tl]; [destruct Hin|].
  inversion Hs as [|? ? _ Hh]; subst. cbn [firstn].
  destruct Hin as [-> | Hin].
  - exists t, (firstn 4 tl), a. repeat split; auto. apply num_leb_refl.
  - rewrite Forall_forall in Hh.
    destruct (Hh t Hin) as [b [a' [Hb [Ha' Hle]]]].
    rewrite Ha in Ha'. injection Ha' as <-.
    now exists h, (firstn 4 tl), b.
Qed.

(** X14: when some row has an amount, the first of the top five has the
    largest amount of the table. *)
Theorem top5_head_is_max (df : table) (t : transaction) (a : number) :
  In t df -> t_thing_amt t = Some a ->
  exists h rest b,
    top5 df = h :: rest /\ t_thing_amt h = Some b /\ num_leb a b = true.
Proof. apply top5_head. Qed.

Lemma top5_head_is_max_witness :
  let df := convert_data (P := reference_parsers)
              [sample_row "A" "20230105" "100" "25";
               sample_row "B" "20230106" "900" "25";
               sample_row "C" "20230107" "" "25"] in
  exists h rest b,
    top5 df = h :: rest /\ t_thing_amt h = Some b /\
    num_leb (Fin 100) b = true.
Proof.
  intros df.
  apply (@top5_head_is_max df
           (convert_row (P := reference_parsers)
              (sample_row "A" "20230105" "100" "25")) (Fin 100)).
  - left. reflexivity.
  - reflexivity.
Defined.

Lemma top5_cards_from_finite (rows : table) :
  forall idx,
    (idx + List.length rows <= 5)%nat ->
    Forall (fun t => exists q, t_thing_amt t = Some (Fin q)) rows ->
    exists cs,
      top5_cards_from idx rows = Ok cs /\
      map c_rank cs = seq (S idx) (List.length rows) /\
      Forall2 (fun t c =>
        py_int (t_thing_amt t) = Ok (c_value c) /\
        c_label c = name_or_default (t_bldg_nm t) /\
        c_area c = t_arch_area t /\ c_day c = t_ctrt_day t) rows cs.
Proof.
  induction rows as [|row rows IH]; intros idx Hlen Hfin.
  - exists []. repeat split; constructor.
  - inversion Hfin as [|? ? [q Hq] Hrest]; subst.
    cbn [List.length] in Hlen. cbn [top5_cards_from].
    replace (5 <=? idx)%nat with false
      by (symmetry; apply Nat.leb_gt; lia).
    rewrite Hq. cbn [py_int bind].
    destruct (IH (S idx) ltac:(lia) Hrest) as [cs [-> [Hr Hf]]].
    eexists. split; [reflexivity|]. split.
    + cbn [map List.length seq c_rank]. now rewrite Hr.
    + constructor; [|exact Hf]. simpl. now rewrite Hq.
Qed.

Lemma top5_cards_from_raises (rows : table) :
  forall idx e,
    (idx + List.length rows <= 5)%nat ->
    Forall (fun t => t_thing_amt t <> None) rows ->
    (top5_cards_from idx rows = Raise e <->
     e = OverflowError /\
     Exists (fun t => is_infinite (t_thing_amt t)) rows).
Proof.
  unfold is_infinite.
  induction rows as [|row rows IH]; intros idx e Hlen Hdef.
  - simpl. split; [discriminate | intros [_ H]; inversion H].
  - inversion Hdef as [|? ? Hrow Hrest]; subst.
    cbn [List.length] in Hlen. cbn [top5_cards_from].
    replace (5 <=? idx)%nat with false
      by (symmetry; apply Nat.leb_gt; lia).
    specialize (IH (S idx)).
    destruct (t_thing_amt row) as [[q| |]|] eqn:Hq; [| | |congruence];
      cbn [py_int bind].
    + assert (Hni : ~ (Some (Fin q) = Some PosInf \/
                       Some (Fin q) = Some NegInf :> option number))
        by (intros [H|H]; discriminate).
      destruct (top5_cards_from (S idx) rows) as [cs|e'] eqn:Hc; cbn [bind].
      * split; [discriminate|]. intros [-> Hex].
        inversion Hex as [? ? H0|? ? H0]; subst.
        -- rewrite Hq in H0. contradiction.
        -- assert (X : Ok cs = Raise OverflowError :> exc (list card))
             by (apply (IH OverflowError); [lia | exact Hrest | now split]).
           discriminate X.
      * split.
        -- intros [= ->].
           destruct (proj1 (IH e ltac:(lia) Hrest) eq_refl) as [-> Hex].
           split; [reflexivity | now apply Exists_cons_tl].
        -- intros [-> _].
           now destruct (proj1 (IH e' ltac:(lia) Hrest) eq_refl) as [-> _].
    + split.
      * intros [= <-]. split; [reflexivity|].
        apply Exists_cons_hd. rewrite Hq. now left.
      * intros [-> _]. reflexivity.
    + split.
      * intros [= <-]. split; [reflexivity|].
        apply Exists_cons_hd. rewrite Hq. now right.
      * intros [-> _]. reflexivity.
Qed.

(** X15: drawing the cards of the top five never runs past the five
    columns and never calls [int] on NaN; it fails, with the
    [OverflowError] of [int] on an infinity, exactly when one of the top
    five has an infinite amount, which is the case as soon as some row of
    the table has the amount plus infinity.  When the amounts of the top
    five are finite the cards are ranked 1, 2, ... in their order and show
    the integer part of the amount. *)
Theorem top5_cards_outcomes (df : table) :
  (forall e, top5_cards (top5 df) = Raise e -> e = OverflowError) /\
  (top5_cards (top5 df) = Raise OverflowError <->
   Exists (fun t => is_infinite (t_thing_amt t)) (top5 df)) /\
  (forall t, In t df -> t_thing_amt t = Some PosInf ->
   top5_cards (top5 df) = Raise OverflowError) /\
  (Forall (fun t => exists q, t_thing_amt t = Some (Fin q)) (top5 df) ->
   exists cs,
     top5_cards (top5 df) =
       Ok (match top5 df with [] => None | _ => Some cs end) /\
     map c_rank cs = seq 1 (List.length (top5 df)) /\
     Forall2 (fun t c =>
       py_int (t_thing_amt t) = Ok (c_value c) /\
       c_label c = name_or_default (t_bldg_nm t) /\
       c_area c = t_arch_area t /\ c_day c = t_ctrt_day t) (top5 df) cs).
Proof.
  assert (Hchar : forall e,
            top5_cards (top5 df) = Raise e <->
            e = OverflowError /\
            Exists (fun t => is_infinite (t_thing_amt t)) (top5 df)).
  { intros e.
    rewrite <- (@top5_cards_from_raises (top5 df) 0%nat e
                  (top5_length df) (top5_defined df)).
    unfold top5_cards. destruct (top5 df) as [|t l] eqn:E.
    - simpl. split; discriminate.
    - destruct (top5_cards_from 0 (t :: l)); simpl; split; congruence. }
  split; [|split; [|split]].
  - intros e He. now apply Hchar in He.
  - rewrite Hchar. tauto.
  - intros t Ht Ha. apply Hchar. split; [reflexivity|].
    destruct (top5_head df t Ht Ha) as [h [rest [b [-> [Hb Hle]]]]].
    apply Exists_cons_hd. left. rewrite Hb.
    destruct b; simpl in Hle; [discriminate | reflexivity | discriminate].
  - intros Hfin.
    destruct (@top5_cards_from_finite (top5 df) 0%nat (top5_length df) Hfin)
      as [cs [H1 [H2 H3]]].
    exists cs. repeat split; auto.
    unfold top5_cards. rewrite H1. now destruct (top5 df).
Qed.

(** ** Map *)

Lemma map_data_In get_coordinates (df : table) (m : marker) :
  In m (map_data get_coordinates df) <->
  exists t, In t df /\
    address_of t = Some (m_address m) /\
    get_coordinates (m_address m) = Some (lat m, lon m) /\
    m_bldg_nm m = t_bldg_nm t /\ m_thing_amt m = t_thing_amt t /\
    m_unit_price m = unit_price t.
Proof.
  induction df as [|t df IH]; simpl.
  - split; [tauto | intros [t [[] _]]].
  - destruct (address_of t) as [a|] eqn:Ha.
    + destruct (get_coordinates a) as [[x y]|] eqn:Hg; simpl.
      * rewrite IH. split.
        -- intros [<- | [t' [Ht' H]]].
           ++ exists t. simpl. rewrite Ha, Hg. repeat split; auto.
           ++ exists t'. split; auto.
        -- intros [t' [[<- | Ht'] [H1 [H2 [H3 [H4 H5]]]]]].
           ++ left. rewrite Ha in H1. injection H1 as H1.
              destruct m; simpl in *; subst. congruence.
           ++ right. exists t'. repeat split; auto.
      * rewrite IH. split.
        -- intros [t' [Ht' H]]. exists t'. split; auto.
        -- intros [t' [[<- | Ht'] [H1 [H2 H3]]]].
           ++ rewrite Ha in H1. injection H1 as H1. rewrite H1 in Hg.
              congruence.
           ++ exists t'. tauto.
    + rewrite IH. split.
      * intros [t' [Ht' H]]. exists t'. split; auto.
      * intros [t' [[<- | Ht'] [H1 H2]]]; [congruence|].
        exists t'. split; auto.
Qed.

Lemma map_data_length get_coordinates (df : table) :
  (List.length (map_data get_coordinates df) <= List.length df)%nat.
Proof.
  induction df as [|t df IH]; simpl; [lia|].
  destruct (address_of t) as [a|]; [|lia].
  destruct (get_coordinates a); simpl; lia.
Qed.

(** X17: the markers are exactly the rows that have an address for which
    the geocoder answers: each marker carries the address of its row, the
    coordinates the geocoder gives for it, and the row's building name,
    amount and unit price; there are at most as many markers as rows. *)
Theorem map_data_spec get_coordinates (df : table) :
  (List.length (map_data get_coordinates df) <= List.length df)%nat /\
  (forall m,
     In m (map_data get_coordinates df) <->
     exists t, In t df /\
       address_of t = Some (m_address m) /\
       get_coordinates (m_address m) = Some (lat m, lon m) /\
       m_bldg_nm m = t_bldg_nm t /\ m_thing_amt m = t_thing_amt t /\
       m_unit_price m = unit_price t).
Proof.
  split; [apply map_data_length | intros m; apply map_data_In].
Qed.



Section RenderMapFacts.

Context {S : Summation}.
Variable round2 : Q -> Q.

Lemma popup_amount_raises (x : option number) (e : exn) :
  popup_amount x = Raise e <->
  (e = ValueError /\ x = None) \/ (e = OverflowError /\ is_infinite x).
Proof.
  unfold popup_amount, is_infinite. destruct x as [[q| |]|]; simpl.
  - destruct (negb (Qeq_bool q 0)); simpl; split; try discriminate;
      intros [[_ H] | [_ [H|H]]]; discriminate.
  - split.
    + intros [= <-]. right. auto.
    + intros [[_ H] | [-> _]]; [discriminate | reflexivity].
  - split.
    + intros [= <-]. right. auto.
    + intros [[_ H] | [-> _]]; [discriminate | reflexivity].
  - split.
    + intros [= <-]. left. auto.
    + intros [[-> _] | [_ [H|H]]]; [reflexivity | discriminate | discriminate].
Qed.

Lemma pins_of_raises (md : list marker) :
  (exists e, pins_of round2 md = Raise e) <->
  Exists (fun d => m_thing_amt d = None \/ is_infinite (m_thing_amt d)) md.
Proof.
  induction md as [|d md IH]; simpl.
  - split; [intros [e H]; discriminate | intros H; inversion H].
  - destruct (popup_amount (m_thing_amt d)) as [a|e'] eqn:Ha; simpl.
    + assert (Hd : ~ (m_thing_amt d = None \/ is_infinite (m_thing_amt d))).
      { intros [H|H].
        - assert (X : popup_amount (m_thing_amt d) = Raise ValueError)
            by (apply popup_amount_raises; left; auto).
          congruence.
        - assert (X : popup_amount (m_thing_amt d) = Raise OverflowError)
            by (apply popup_amount_raises; right; auto).
          congruence. }
      destruct (pins_of round2 md) as [ps|e''] eqn:Hp; simpl.
      * split; [intros [e H]; discriminate|].
        intros Hex. inversion Hex; subst; [contradiction|].
        apply IH in H0 as [e H0]. discriminate.
      * split.
        -- intros _. apply Exists_cons_tl, IH. now exists e''.
        -- intros _. now exists e''.
    + split; [|intros _; now exists e'].
      intros _. apply Exists_cons_hd.
      apply popup_amount_raises in Ha as [[_ H] | [_ H]]; auto.
Qed.

Lemma pins_of_exn (md : list marker) (e : exn) :
  pins_of round2 md = Raise e -> e = ValueError \/ e = OverflowError.
Proof.
  induction md as [|d md IH]; simpl; [discriminate|].
  destruct (popup_amount (m_thing_amt d)) as [a|e'] eqn:Ha; simpl.
  - destruct (pins_of round2 md) as [ps|e'']; simpl; [discriminate|].
    intros [= <-]. now apply IH.
  - intros [= <-].
    apply popup_amount_raises in Ha as [[-> _] | [-> _]]; auto.
Qed.

Lemma pins_of_length (md : list marker) (ps : list pin) :
  pins_of round2 md = Ok ps -> List.length ps = List.length md.
Proof.
  revert ps; induction md as [|d md IH]; intros ps; simpl.
  - intros [= <-]. reflexivity.
  - destruct (popup_amount (m_thing_amt d)); simpl; [|discriminate].
    destruct (pins_of round2 md) as [ps'|]; simpl; [|discriminate].
    intros [= <-]. simpl. now rewrite (IH ps' eq_refl).
Qed.

(** X19: drawing the map fails exactly when some row that has an address
    for which the geocoder answers has no amount or an infinite one: [int]
    is called on it and raises [ValueError] or [OverflowError]; nothing
    else fails, and a map that is drawn has one pin for each marker. *)
Theorem render_map_fails_iff get_coordinates (df : table) :
  (forall e, render_map round2 (map_data get_coordinates df) = Raise e ->
             e = ValueError \/ e = OverflowError) /\
  ((exists e, render_map round2 (map_data get_coordinates df) = Raise e) <->
   exists t a, In t df /\ address_of t = Some a /\
               get_coordinates a <> None /\
               (t_thing_amt t = None \/ is_infinite (t_thing_amt t))) /\
  (forall fm, render_map round2 (map_data get_coordinates df) = Ok (Some fm) ->
              List.length (pins fm) =
              List.length (map_data get_coordinates df)).
Proof.
  assert (Hr : forall e,
            render_map round2 (map_data get_coordinates df) = Raise e <->
            pins_of round2 (map_data get_coordinates df) = Raise e).
  { intros e. unfold render_map.
    destruct (map_data get_coordinates df) as [|d md].
    - simpl. split; discriminate.
    - destruct (pins_of round2 (d :: md)); simpl; split; congruence. }
  split; [|split].
  - intros e He. apply Hr in He. now apply pins_of_exn in He.
  - transitivity (exists e,
        pins_of round2 (map_data get_coordinates df) = Raise e).
    { split; intros [e He]; exists e; now apply Hr. }
    rewrite pins_of_raises, Exists_exists. split.
    + intros [m [Hm Hn]].
      apply map_data_In in Hm as [t [Ht [Ha [Hg [_ [Hamt _]]]]]].
      exists t, (m_address m). rewrite <- Hamt.
      repeat split; auto. congruence.
    + intros [t [a [Ht [Ha [Hg Hn]]]]].
      destruct (get_coordinates a) as [[x y]|] eqn:Hxy; [|congruence].
      exists {| lat := x; lon := y; m_bldg_nm := t_bldg_nm t;
                m_address := a; m_thing_amt := t_thing_amt t;
                m_unit_price := unit_price t |}.
      split; [|exact Hn].
      apply map_data_In. exists t. simpl. repeat split; auto.
  - intros fm. unfold render_map.
    destruct (map_data get_coordinates df) as [|d md]; [discriminate|].
    destruct (pins_of round2 (d :: md)) as [ps|] eqn:Hp; simpl;
      [|discriminate].
    intros [= <-]. exact (pins_of_length _ Hp).
Qed.

End RenderMapFacts.

(** ** The start of [main] and the values it computes *)

Lemma query_real_estate_cases get api_key district dong start end_ :
  (exists e, query_real_estate get api_key district dong start end_ =
             ([StError "API 호출 실패" e], Ok [])) \/
  (exists r, query_real_estate get api_key district dong start end_ = ([], r) /\
             (forall e, r = Raise e ->
                e = TypeError \/
                exists resp, get (base_url api_key start end_) = GetReturns resp /\
                             fromstring (content resp) = Raise e) /\
             (forall out, r = Ok out ->
                Forall (fun d => keep_row district dong (cgg_nm d) (stdg_nm d)
                                 = Ok true) out)).
Proof.
  unfold query_real_estate.
  destruct (get (base_url api_key start end_)) as [e0|r]; simpl.
  - left. now eexists.
  - destruct (raise_for_status r) as [[]|e1]; simpl; [|left; now eexists].
    right. eexists. split; [reflexivity|]. split.
    + intros e. destruct (fromstring (content r)) as [root|e'] eqn:Hf; simpl.
      * intros H. apply filter_rows_raise_char in H as [-> _]. now left.
      * intros [= <-]. right. now exists r.
    + intros out. destruct (fromstring (content r)) as [root|e']; simpl;
        [|discriminate].
      apply filter_rows_kept.
Qed.

Lemma current_table_length (df : table) (date_range : list date) :
  (List.length (current_table df date_range) <= List.length df)%nat.
Proof.
  unfold current_table. destruct (_ && _); [|lia].
  destruct date_range as [|lo [|hi [|x r]]]; try lia.
  apply filter_length_le.
Qed.

(** X21: when the start of [main] hands rows to the converter, nothing
    was shown before and there is a row at least; the table shown has one
    row for each, and the district of each contains the district asked
    for; the count of the KPIs is at most the number of rows shown, the
    top five are at most five and the markers at most the count. *)
Theorem view_of_spec {P : Parsers} {S : Summation} get get_coordinates
    district dong start end_ date_range shown results :
  main_query get district dong start end_ = (shown, Ok (Some results)) ->
  let v := view_of get_coordinates results date_range in
  shown = [] /\
  results <> [] /\
  List.length (shown_table v) = List.length results /\
  Forall (fun t => exists c a b, t_cgg_nm t = Some c /\ c = a ++ district ++ b)
    (shown_table v) /\
  (total_count (kpi v) <= List.length (shown_table v))%nat /\
  (List.length (top v) <= 5)%nat /\
  (List.length (markers v) <= total_count (kpi v))%nat.
Proof.
  unfold main_query. destruct (negb (truthy (Some district))); [discriminate|].
  destruct (query_real_estate_cases get real_estate_api_key district dong
              start end_) as [[e He] | [r [Hq [_ Hkept]]]].
  - rewrite He. discriminate.
  - rewrite Hq. destruct r as [[|d rs]|e]; try discriminate.
    intros [= <- <-]. cbv zeta. unfold view_of.
    cbn [shown_table kpi trend top markers].
    repeat split.
    + discriminate.
    + rewrite convert_data_map. apply length_map.
    + specialize (Hkept _ eq_refl). rewrite convert_data_map.
      apply Forall_map. eapply Forall_impl; [|exact Hkept].
      intros x Hx. cbn [convert_row t_cgg_nm].
      apply keep_row_true in Hx as [c [Hc [Hin _]]].
      apply str_contains_spec in Hin as [a [b Hab]]. now exists c, a, b.
    + cbn [summary_kpis total_count]. apply current_table_length.
    + apply top5_length.
    + cbn [summary_kpis total_count]. apply map_data_length.
Qed.

Lemma view_of_spec_witness :
  let get := fun _ : string =>
    GetReturns
      {| status_code := 200;
         content := WellFormed
           (Element "tbLnOpendataRtmsV" None
              [ Element "row" None
                  [Element "CGG_NM" (Some "강서구") [];
                   Element "STDG_NM" (Some "화곡동") [];
                   Element "MNO" (Some "0012") [];
                   Element "SNO" (Some "0000") [];
                   Element "CTRT_DAY" (Some "20230105") [];
                   Element "THING_AMT" (Some "50000") [];
                   Element "ARCH_AREA" (Some "25") []] ]) |} in
  exists results,
    main_query get "강서구" (Some EmptyString) 1 1000 = ([], Ok (Some results)) /\
    let v := view_of (P := reference_parsers) (S := reference_summation)
               (fun _ => None) results [] in
    List.length (shown_table v) = List.length results /\
    (total_count (kpi v) <= List.length (shown_table v))%nat.
Proof.
  intros get. eexists. split; [reflexivity|].
  pose proof (@view_of_spec reference_parsers reference_summation get
                (fun _ => None) "강서구" (Some EmptyString) 1 1000 [] []
                _ eq_refl) as H.
  cbv zeta in H. cbv zeta. split; [apply H | apply H].
Defined.

(** X22: how the start of [main] ends without rows.  With an empty
    district it shows a warning and the outcome does not depend on the
    network; when it returns without rows the last message is that warning
    or the note "no data"; and an exception leaves it only as the one
    [ET.fromstring] raised on the body or as the [TypeError] of the filter,
    with nothing shown before it. *)
Theorem main_query_outcomes get district dong start end_ :
  let res := main_query get district dong start end_ in
  (district = EmptyString ->
   forall get',
     res = main_query get' district dong start end_ /\
     res = ([StWarning "자치구명을 입력하세요."], Ok None)) /\
  (snd res = Ok None ->
   exists before what,
     fst res = (before ++ [what])%list /\
     (what = StWarning "자치구명을 입력하세요." \/
      what = StInfo "해당 조건의 실거래 데이터가 없습니다.")) /\
  (forall e, snd res = Raise e ->
     fst res = [] /\
     (e = TypeError \/
      exists resp,
        get (base_url real_estate_api_key start end_) = GetReturns resp /\
        fromstring (content resp) = Raise e)).
Proof.
  cbv zeta. split; [|split].
  - intros -> get'. split; reflexivity.
  - unfold main_query. destruct (negb (truthy (Some district))).
    + intros _. exists [], (StWarning "자치구명을 입력하세요."). simpl. auto.
    + destruct (query_real_estate get real_estate_api_key district dong
                  start end_) as [shown r].
      destruct r as [[|d results]|e]; simpl; try discriminate.
      intros _. exists shown, (StInfo "해당 조건의 실거래 데이터가 없습니다.").
      auto.
  - intros e. unfold main_query. destruct (negb (truthy (Some district)));
      [discriminate|].
    destruct (query_real_estate_cases get real_estate_api_key district dong
                start end_) as [[e' He] | [r [Hq [Hr _]]]].
    + rewrite He. discriminate.
    + rewrite Hq. destruct r as [[|d results]|e'']; simpl; try discriminate.
      intros [= <-]. split; [reflexivity | now apply Hr].
Qed.

Lemma unit_price_of_area (amount area : option number) (u : number) :
  unit_price_of amount area = Some u -> area <> None.
Proof.
  intros H.
  assert (Hd : unit_price_of amount area <> None) by congruence.
  apply unit_price_of_defined in Hd as [_ [[-> | [b [-> _]]] _]]; discriminate.
Qed.

(** X23: in a converted table, before or after the date filter, a row
    with a unit price has an area, so the rows behind the histogram and
    the scatter plot are exactly the rows with a unit price. *)
Theorem df_analysis_unit_price {P : Parsers} (results : list filtered_row)
    (date_range : list date) :
  let cur := current_table (convert_data results) date_range in
  df_analysis cur = filter (fun t => notnull (unit_price t)) cur.
Proof.
  cbv zeta. unfold df_analysis. apply filter_ext_in. intros t Ht.
  assert (Hin : In t (convert_data results)).
  { unfold current_table in Ht. destruct (_ && _); [|exact Ht].
    destruct date_range as [|lo [|hi [|x r]]]; auto.
    now apply filter_In in Ht. }
  rewrite convert_data_map in Hin. apply in_map_iff in Hin as [r [<- _]].
  cbn [convert_row unit_price t_arch_area].
  destruct (unit_price_of (to_numeric (thing_amt r)) (to_numeric (arch_area r)))
    as [u|] eqn:Hu; [|reflexivity].
  apply unit_price_of_area in Hu.
  now destruct (to_numeric (arch_area r)).
Qed.

(** ** Geocoder *)

Lemma cached_lookup_kept geocode address (s : geo_state) a r :
  cache_lookup a (cache s) = Some r ->
  cache_lookup a (cache (snd (cached_get_coordinates geocode address s)))
    = Some r.
Proof.
  intros H. unfold cached_get_coordinates.
  destruct (cache_lookup address (cache s)) eqn:E; simpl; [exact H|].
  destruct (String.eqb_spec a address) as [->|]; [congruence | exact H].
Qed.

Lemma cached_lookup_stored geocode address (s : geo_state) :
  cache_lookup address
    (cache (snd (cached_get_coordinates geocode address s)))
  = Some (fst (cached_get_coordinates geocode address s)).
Proof.
  unfold cached_get_coordinates.
  destruct (cache_lookup address (cache s)) eqn:E; simpl; [exact E|].
  now rewrite String.eqb_refl.
Qed.

Lemma map_data_run_kept geocode (df : table) :
  forall s a r,
    cache_lookup a (cache s) = Some r ->
    cache_lookup a (cache (snd (map_data_run geocode df s))) = Some r.
Proof.
  induction df as [|t df IH]; intros s a r H; simpl; [exact H|].
  destruct (address_of t) as [address|]; [|now apply IH].
  pose proof (cached_lookup_kept geocode address s a H) as H1.
  destruct (cached_get_coordinates geocode address s) as [coords s1].
  specialize (IH s1 a r H1).
  destruct (map_data_run geocode df s1) as [rest s2]. exact IH.
Qed.

(** X24: the map loop with the cached geocoder computes the markers of
    [map_data] for the function that answers each address as the cache
    does when the loop ends: within a run an address has one answer, the
    first one, also when the provider would answer differently later. *)
Theorem map_data_run_refines geocode (df : table) (s : geo_state) :
  fst (map_data_run geocode df s) =
  map_data (cached_answer (snd (map_data_run geocode df s))) df.
Proof.
  revert s; induction df as [|t df IH]; intros s; simpl; [reflexivity|].
  destruct (address_of t) as [address|] eqn:Ha; [|apply IH].
  pose proof (cached_lookup_stored geocode address s) as Hst.
  destruct (cached_get_coordinates geocode address s) as [coords s1].
  simpl in Hst.
  pose proof (map_data_run_kept geocode df s1 address Hst) as Hk.
  specialize (IH s1).
  destruct (map_data_run geocode df s1) as [rest s2]. simpl in *.
  unfold cached_answer at 1. rewrite Hk, <- IH.
  destruct coords as [[x y]|]; reflexivity.
Qed.

(** X25: during the map loop the provider is asked at most once for an
    address, only for addresses of rows and never for a cached one; and the
    loop sleeps one second for each request on which the provider returned,
    none for a request that raised or an address answered from the
    cache. *)
Theorem map_data_run_requests geocode (df : table) :
  forall s,
    exists new,
      asked (snd (map_data_run geocode df s)) = (new ++ asked s)%list /\
      NoDup (map fst new) /\
      Forall (fun q => cache_lookup (fst q) (cache s) = None /\
                       exists t, In t df /\ address_of t = Some (fst q)) new /\
      slept (snd (map_data_run geocode df s)) =
        (slept s + List.length (filter (fun q => returned (snd q)) new))%nat.
Proof.
  induction df as [|t df IH]; intros s; simpl.
  - exists []. simpl. repeat split; [constructor | constructor | lia].
  - destruct (address_of t) as [address|] eqn:Ha.
    + unfold cached_get_coordinates.
      destruct (cache_lookup address (cache s)) as [r|] eqn:E.
      * destruct (IH s) as [new [H1 [H2 [H3 H4]]]].
        destruct (map_data_run geocode df s) as [rest s2]. simpl in *.
        exists new. repeat split; auto.
        eapply Forall_impl; [|exact H3].
        intros q [Hq [t' [Ht' Hq']]]. split; [exact Hq|].
        exists t'. auto.
      * set (o := geocode (List.length (asked s)) address).
        set (s1 := {| cache := (address, l_result (get_coordinates_body o))
                                 :: cache s;
                      asked := (address, o) :: asked s;
                      slept := slept s + l_slept (get_coordinates_body o) |}).
        destruct (IH s1) as [new [H1 [H2 [H3 H4]]]].
        destruct (map_data_run geocode df s1) as [rest s2]. simpl in *.
        exists (new ++ [(address, o)])%list. split; [|split; [|split]].
        -- rewrite H1. now rewrite <- app_assoc.
        -- rewrite map_app. simpl.
           apply NoDup_app_remove_l with (l := []). simpl.
           apply Permutation_NoDup with (l := address :: map fst new).
           ++ apply Permutation_cons_append.
           ++ constructor; [|exact H2].
              intros Hin. apply in_map_iff in Hin as [q [Hq Hin]].
              rewrite Forall_forall in H3. destruct (H3 q Hin) as [Hn _].
              rewrite Hq, String.eqb_refl in Hn. discriminate.
        -- apply Forall_app. split.
           ++ eapply Forall_impl; [|exact H3].
              intros q [Hq [t' [Ht' Hq']]]. split.
              ** destruct (String.eqb (fst q) address); [discriminate | exact Hq].
              ** exists t'. auto.
           ++ constructor; [|constructor]. simpl. split; [exact E|].
              exists t. auto.
        -- rewrite H4, filter_app, length_app. simpl.
           destruct o; simpl; lia.
    + destruct (IH s) as [new [H1 [H2 [H3 H4]]]].
      exists new. repeat split; auto.
      eapply Forall_impl; [|exact H3].
      intros q [Hq [t' [Ht' Hq']]]. split; [exact Hq|]. exists t'. auto.
Qed.
